(** * Callback framework of the early-stopping simulator (callbacks.py)

    A shallow embedding of [src/callbacks.py]: the two metric aggregators
    ([PatienceStrategyCallback], [LearningCurveStrategyCallback]) and the
    orchestration callback [GraphSimulationCallback], with the Python
    objects they share kept in an explicit store.

    Conventions.
    - A Python [dict] is an insertion-ordered association list with unique
      keys ([dict]); the [filters] argument, which is only read by key, is
      a [gmap].
    - Python exceptions are values of [exn]; a method is a state
      transformer that returns the state it reached together with either
      its result or the exception it raised, so that mutations performed
      before a [raise] stay visible.
    - Objects that are shared and mutated (the results accumulators, the
      panels, the strategies) live in the store and are named by their
      index; the accumulator made by [before_strategy] is one object, seen
      by the callback and by the aggregator attached to the strategy.
    - The per-model eval sets and metrics of [curve_data] are sequences
      (lists or arrays) of names, which is what [len] and [np.intersect1d]
      are applied to; a Python [set] in their place, which [np.intersect1d]
      does not take, is outside the model.
    - [np.sqrt], [np.ceil] and the true division of [before_task] compute
      in binary64.  [ceil_sqrt] and [ceil_div] are the exact integers, which
      the floating-point computation returns for every [num_axes] below
      2^52 ([binary64_exact]); from 2^52 + 1 on the two differ.  The
      statements that give the values of [cols] and [rows] carry that
      bound; the others speak of a [before_task] that has returned, having
      allocated its [rows × cols] panels.
    - An exception is identified by its class.  [KeyError] carries the
      missing key and [ValueError] its message; the messages that the
      interpreter composes for the other classes are not modelled.
    - The plotting libraries and the file system are external
      collaborators, modelled at their boundary.  [plt_subplots] makes a
      grid of blank panels.  [sns_lineplot] refuses series of different
      lengths, draws nothing for empty series and otherwise adds one line
      to the panel; a [Line] records the data and the label handed to
      [lineplot], not the points the library draws from them (it sorts the
      points by x and replaces the values that share an x by their mean).
      [figure_savefig] records the destination and what is drawn, and fails
      when the directory of the destination does not exist; other failures
      of the file system (permissions, a full disk) are not modelled. *)

From Stdlib Require Import SpecFloat Ascii String.
From stdpp Require Import base option list sorting strings gmap.

Open Scope string_scope.
Open Scope list_scope.
Open Scope nat_scope.

(** ** Exceptions and outcomes *)

Inductive exn : Type :=
  | KeyError (key : string)
  | ValueError (msg : string)
  | TypeError
  | AttributeError
  | IndexError
  | StopIteration
  | ZeroDivisionError
  | FileNotFoundError
  | SystemError (msg : string).

Inductive outcome (A : Type) : Type :=
  | Ok (a : A)
  | Raise (e : exn).
Arguments Ok {A} a.
Arguments Raise {A} e.

#[global] Instance outcome_ret : MRet outcome := fun A a => Ok a.
#[global] Instance outcome_bind : MBind outcome := fun A B f m =>
  match m with
  | Ok a => f a
  | Raise e => Raise e
  end.

(** ** Python values stored in a results accumulator *)

Inductive scalar : Type :=
  | PyInt (n : Z)
  | PyFloat (f : spec_float).

(** ** Insertion-ordered dictionaries *)

Module Dict.

Definition dict (V : Type) : Type := list (string * V).

Definition keys {V} (d : dict V) : list string := d.*1.

(** [d.get(k)]: the value bound to [k], if any. *)
Fixpoint get {V} (k : string) (d : dict V) : option V :=
  match d with
  | [] => None
  | (k', v) :: r => if String.eqb k k' then Some v else get k r
  end.

(** [k in d] *)
Definition contains {V} (k : string) (d : dict V) : bool :=
  match get k d with Some _ => true | None => false end.

(** [d[k]]: raises [KeyError] on an absent key. *)
Definition getitem {V} (k : string) (d : dict V) : outcome V :=
  match get k d with
  | Some v => Ok v
  | None => Raise (KeyError k)
  end.

(** [d[k] = v]: overwrites in place, a new key goes to the end. *)
Fixpoint set {V} (k : string) (v : V) (d : dict V) : dict V :=
  match d with
  | [] => [(k, v)]
  | (k', v') :: r =>
      if String.eqb k k' then (k, v) :: r else (k', v') :: set k v r
  end.

(** [del d[k]]: raises [KeyError] on an absent key. *)
Fixpoint remove {V} (k : string) (d : dict V) : dict V :=
  match d with
  | [] => []
  | (k', v') :: r =>
      if String.eqb k k' then r else (k', v') :: remove k r
  end.

Definition delitem {V} (k : string) (d : dict V) : outcome (dict V) :=
  if contains k d then Ok (remove k d) else Raise (KeyError k).

End Dict.
Import Dict.

(** ** Metric aggregators *)

Inductive callback_class : Type :=
  | PatienceStrategyCallback
  | LearningCurveStrategyCallback.

(** Class attributes [name] and [file_name]. *)
Definition name (c : callback_class) : string :=
  match c with
  | PatienceStrategyCallback => "Patience Curves"
  | LearningCurveStrategyCallback => "Learning Curves"
  end.

Definition file_name (c : callback_class) : string :=
  match c with
  | PatienceStrategyCallback => "patience_curves"
  | LearningCurveStrategyCallback => "learning_curves"
  end.

(** The arguments of one [before_iter] call (the strategy argument is not
    used by either aggregator). *)
Record iter_args : Type := IterArgs {
  arg_iter : Z;
  arg_error : spec_float;
  arg_iter_wo_improvement : Z;
  arg_patience : Z;
}.

Abbreviation results_dict := (dict (list scalar)).

(** [if k not in self.results: self.results[k] = []] *)
Definition ensure_series (k : string) (d : results_dict) : results_dict :=
  if contains k d then d else set k [] d.

(** [self.results[k].append(v)] *)
Definition append_series (k : string) (v : scalar) (d : results_dict)
  : outcome results_dict :=
  l ← getitem k d; mret (set k (l ++ [v]) d).

(** [PatienceStrategyCallback.before_iter] on the accumulator it was
    constructed with: the updated accumulator and the stop vote. *)
Definition patience_before_iter (a : iter_args) (d : results_dict)
  : outcome (results_dict * bool) :=
  let d := ensure_series "iter" d in
  let d := ensure_series "iter_wo_improvement" d in
  let d := ensure_series "patience" d in
  d ← append_series "iter" (PyInt (arg_iter a)) d;
  d ← append_series "iter_wo_improvement" (PyInt (arg_iter_wo_improvement a)) d;
  d ← append_series "patience" (PyInt (arg_patience a)) d;
  mret (d, false).

(** [LearningCurveStrategyCallback.before_iter]. *)
Definition learning_curve_before_iter (a : iter_args) (d : results_dict)
  : outcome (results_dict * bool) :=
  let d := ensure_series "iter" d in
  let d := ensure_series "error" d in
  d ← append_series "iter" (PyInt (arg_iter a)) d;
  d ← append_series "error" (PyFloat (arg_error a)) d;
  mret (d, false).

Definition before_iter (c : callback_class) (a : iter_args) (d : results_dict)
  : outcome (results_dict * bool) :=
  match c with
  | PatienceStrategyCallback => patience_before_iter a d
  | LearningCurveStrategyCallback => learning_curve_before_iter a d
  end.

(** A sequence of [before_iter] calls on one aggregator, in call order:
    the final accumulator and the votes returned, or the first exception. *)
Fixpoint before_iter_calls (c : callback_class) (calls : list iter_args)
    (d : results_dict) : outcome (results_dict * list bool) :=
  match calls with
  | [] => mret (d, [])
  | a :: rest =>
      '(d1, vote) ← before_iter c a d;
      '(d2, votes) ← before_iter_calls c rest d1;
      mret (d2, vote :: votes)
  end.

(** ** The rendering collaborator, at its boundary *)

(** One line drawn by [sns.lineplot(x=x, y=line, ax=ax, label=label)],
    recorded as the data and the label handed to the call.  The points the
    library draws from them (sorted by x, the values that share an x
    replaced by their mean) are not modelled. *)
Record Line : Type := MkLine {
  line_x : list scalar;
  line_y : list scalar;
  line_label : string;
}.

(** What [ax.get_legend_handles_labels()] returns: handles and labels. *)
Definition Legend : Type := list Line * list string.

(** A panel ([matplotlib] [Axes] object). *)
Record Axes : Type := MkAxes {
  ax_lines : list Line;
  ax_legend_visible : option bool;
  ax_xlabel : string;
  ax_ylabel : string;
  ax_grid : bool;
  ax_title : string;
}.

Definition blank_axes : Axes := MkAxes [] None "" "" false "".

(** A figure; its panels are references into the store of [Axes] objects,
    in row-major order. *)
Record Figure : Type := MkFigure {
  fig_rows : nat;
  fig_cols : nat;
  fig_size : nat * nat;
  fig_axes : list nat;
  fig_suptitle : option string;
  fig_legend : option Legend;
  fig_tight_layout : bool;
}.

(** ** Objects of the program *)

(** An aggregator instance: its class and the accumulator it was
    constructed with (a reference: the accumulator is shared with the
    orchestration callback). *)
Record strategy_callback_instance : Type := MkInstance {
  inst_class : callback_class;
  inst_results : nat;
}.

(** What the callback uses of a strategy: its [callbacks] attribute
    ([None] or a list) and its string representation. *)
Record Strategy : Type := MkStrategy {
  strategy_str : string;
  callbacks : option (list strategy_callback_instance);
}.

(** The fields of a [GraphSimulationCallback] instance.  [axes] is the
    generator made by [generator]: the panels it has not yielded yet. *)
Record GraphSimulationCallback : Type := MkCallback {
  strategy_callback : callback_class;
  path : option string;
  figure : option Figure;
  axes : option (list nat);
  legend : option Legend;
  results : option nat;
}.

(** [GraphSimulationCallback.__init__] *)
Definition init (strategy_callback : callback_class) (path : option string)
  : GraphSimulationCallback :=
  MkCallback strategy_callback path None None None None.

(** The store: the callback instance [self], the accumulators, the panels
    and the strategies allocated so far, the [savefig] calls that wrote a
    file (destination and what was drawn) and, of the file system, the
    names of the directories that exist. *)
Record World : Type := MkWorld {
  self : GraphSimulationCallback;
  dicts : list results_dict;
  axes_heap : list Axes;
  strategies : list Strategy;
  saved : list (string * Figure * list Axes);
  directories : list string;
}.

Definition new_world (cb : GraphSimulationCallback) (ss : list Strategy)
    (dirs : list string) : World :=
  MkWorld cb [] [] ss [] dirs.

Definition with_self (f : GraphSimulationCallback → GraphSimulationCallback)
    (w : World) : World :=
  MkWorld (f (self w)) (dicts w) (axes_heap w) (strategies w) (saved w)
          (directories w).
Definition with_dicts (f : list results_dict → list results_dict) (w : World) : World :=
  MkWorld (self w) (f (dicts w)) (axes_heap w) (strategies w) (saved w)
          (directories w).
Definition with_axes_heap (f : list Axes → list Axes) (w : World) : World :=
  MkWorld (self w) (dicts w) (f (axes_heap w)) (strategies w) (saved w)
          (directories w).
Definition with_strategies (f : list Strategy → list Strategy) (w : World) : World :=
  MkWorld (self w) (dicts w) (axes_heap w) (f (strategies w)) (saved w)
          (directories w).
Definition with_saved
    (f : list (string * Figure * list Axes) → list (string * Figure * list Axes))
    (w : World) : World :=
  MkWorld (self w) (dicts w) (axes_heap w) (strategies w) (f (saved w))
          (directories w).

Definition set_figure (v : option Figure) (s : GraphSimulationCallback) :=
  MkCallback (strategy_callback s) (path s) v (axes s) (legend s) (results s).
Definition set_axes (v : option (list nat)) (s : GraphSimulationCallback) :=
  MkCallback (strategy_callback s) (path s) (figure s) v (legend s) (results s).
Definition set_legend (v : option Legend) (s : GraphSimulationCallback) :=
  MkCallback (strategy_callback s) (path s) (figure s) (axes s) v (results s).
Definition set_results (v : option nat) (s : GraphSimulationCallback) :=
  MkCallback (strategy_callback s) (path s) (figure s) (axes s) (legend s) v.

(** ** Methods as state transformers that may raise *)

Definition M (A : Type) : Type := World → outcome A * World.

#[global] Instance M_ret : MRet M := fun A a w => (Ok a, w).
#[global] Instance M_bind : MBind M := fun A B f m w =>
  match m w with
  | (Ok a, w') => f a w'
  | (Raise e, w') => (Raise e, w')
  end.

Definition raise {A} (e : exn) : M A := fun w => (Raise e, w).
Definition lift {A} (o : outcome A) : M A := fun w => (o, w).
Definition gets {A} (f : World → A) : M A := fun w => (Ok (f w), w).
Definition modify (f : World → World) : M unit := fun w => (Ok tt, f w).

(** Following a reference.  References are only made by allocation, so the
    [SystemError] branch is never taken from a store built by the methods
    below; it gives the functions a value on arbitrary stores. *)
Definition deref {A} (heap : World → list A) (r : nat) : M A := fun w =>
  match heap w !! r with
  | Some a => (Ok a, w)
  | None => (Raise (SystemError "dangling reference"), w)
  end.

(** In-place update of the panel [ax]. *)
Definition update_axes (ax : nat) (f : Axes → Axes) : M unit :=
  a ← deref axes_heap ax;
  modify (with_axes_heap (fun h => <[ax := f a]> h)).

Fixpoint for_each {A} (l : list A) (body : A → M unit) : M unit :=
  match l with
  | [] => mret tt
  | a :: r => body a ;; for_each r body
  end.

(** ** [GraphSimulationCallback.plot_lines] *)

(** [sns.lineplot(x=x, y=line, ax=ax, label=label)].  The library drops an
    empty vector: with both empty it returns without drawing, with one
    empty it fails on the column it then misses.  Two vectors of different
    lengths are refused when the data frame is built.  Otherwise the panel
    gains one line. *)
Definition sns_lineplot (x line : list scalar) (ax : nat) (label : string) : M unit :=
  match x, line with
  | [], [] => mret tt
  | [], _ :: _ => raise (KeyError "x")
  | _ :: _, [] => raise (KeyError "y")
  | _ :: _, _ :: _ =>
      if length x =? length line then
        update_axes ax (fun a =>
          MkAxes (ax_lines a ++ [MkLine x line label]) (ax_legend_visible a)
                 (ax_xlabel a) (ax_ylabel a) (ax_grid a) (ax_title a))
      else raise (ValueError "All arrays must be of the same length")
  end.

(** [ax.legend().set_visible(b)] *)
Definition ax_legend_set_visible (ax : nat) (b : bool) : M unit :=
  update_axes ax (fun a =>
    MkAxes (ax_lines a) (Some b) (ax_xlabel a) (ax_ylabel a) (ax_grid a) (ax_title a)).

Definition ax_set_xlabel (ax : nat) (l : string) : M unit :=
  update_axes ax (fun a =>
    MkAxes (ax_lines a) (ax_legend_visible a) l (ax_ylabel a) (ax_grid a) (ax_title a)).

Definition ax_set_ylabel (ax : nat) (l : string) : M unit :=
  update_axes ax (fun a =>
    MkAxes (ax_lines a) (ax_legend_visible a) (ax_xlabel a) l (ax_grid a) (ax_title a)).

Definition ax_set_grid (ax : nat) (b : bool) : M unit :=
  update_axes ax (fun a =>
    MkAxes (ax_lines a) (ax_legend_visible a) (ax_xlabel a) (ax_ylabel a) b (ax_title a)).

Definition ax_set_title (ax : nat) (t : string) : M unit :=
  update_axes ax (fun a =>
    MkAxes (ax_lines a) (ax_legend_visible a) (ax_xlabel a) (ax_ylabel a) (ax_grid a) t).

(** A line enters the legend when its label is non-empty and does not
    start with an underscore. *)
Definition in_legend (l : Line) : bool :=
  match line_label l with
  | EmptyString => false
  | String c _ => negb (Ascii.eqb c "_"%char)
  end.

(** [ax.get_legend_handles_labels()] *)
Definition legend_handles_labels (a : Axes) : Legend :=
  let hs := List.filter in_legend (ax_lines a) in (hs, line_label <$> hs).

Definition ax_get_legend_handles_labels (ax : nat) : M Legend :=
  a ← deref axes_heap ax; mret (legend_handles_labels a).

Definition plot_lines (x : string) (ax : nat) (kwargs : results_dict) : M unit :=
  if length kwargs <? 2 then
    raise (ValueError "Not enough lines to construct line plot!")
  else
    let x_label := x in
    x ← lift (getitem x_label kwargs);
    kwargs ← lift (delitem x_label kwargs);
    for_each kwargs (fun '(label, line) => sns_lineplot x line ax label) ;;
    ax_legend_set_visible ax false ;;
    ax_set_xlabel ax x_label ;;
    ax_set_ylabel ax x_label ;;
    ax_set_grid ax true.

(** The call [self.plot_lines(x, ax, **kwargs)]: a keyword that names a
    parameter already bound ([self], [x], [ax]) is refused before the body
    runs. *)
Definition clashes (kwargs : results_dict) : bool :=
  contains "self" kwargs || contains "x" kwargs || contains "ax" kwargs.

Definition call_plot_lines (x : string) (ax : nat) (kwargs : results_dict) : M unit :=
  if clashes kwargs then
    raise TypeError
  else plot_lines x ax kwargs.

(** ** [GraphSimulationCallback.before_task] *)

(** The value of a filter option: [None] or a list of names. *)
Inductive filter_value : Type :=
  | FNone
  | FList (l : list string).

Definition truthy (v : filter_value) : bool :=
  match v with
  | FNone => false
  | FList [] => false
  | FList (_ :: _) => true
  end.

Definition filter_items (v : filter_value) : list string :=
  match v with FNone => [] | FList l => l end.

(** [filters[k]] *)
Definition filter_getitem (filters : gmap string filter_value) (k : string)
  : outcome filter_value :=
  match filters !! k with
  | Some v => Ok v
  | None => Raise (KeyError k)
  end.

Definition string_le (a b : string) : Prop := String.leb a b = true.
#[global] Instance string_le_dec a b : Decision (string_le a b) :=
  decide (String.leb a b = true).

(** [np.unique]: the distinct values, sorted. *)
Definition np_unique (l : list string) : list string :=
  merge_sort string_le (remove_dups l).

(** [np.intersect1d(ar1, ar2)]: the sorted distinct values that occur in
    both arrays. *)
Definition np_intersect1d (ar1 ar2 : list string) : list string :=
  filter (fun s => s ∈ ar2) (np_unique ar1).

(** The first loop of [before_task], from a running [total_curves]. *)
Fixpoint total_curves_loop {X} (curve_data : dict (list string * list string * X))
    (filters : gmap string filter_value) (total_curves : nat) : outcome nat :=
  match curve_data with
  | [] => Ok total_curves
  | (model, (eval_sets, metrics, _)) :: rest =>
      f_models ← filter_getitem filters "models";
      if truthy f_models && negb (bool_decide (model ∈ filter_items f_models)) then
        total_curves_loop rest filters total_curves
      else
        f_metrics ← filter_getitem filters "metrics";
        let metrics :=
          if truthy f_metrics
          then length (np_intersect1d metrics (filter_items f_metrics))
          else length metrics in
        f_eval_sets ← filter_getitem filters "eval_sets";
        let eval_sets :=
          if truthy f_eval_sets
          then length (np_intersect1d eval_sets (filter_items f_eval_sets))
          else length eval_sets in
        total_curves_loop rest filters (total_curves + metrics * eval_sets)
  end.

Definition total_curves {X} (curve_data : dict (list string * list string * X))
    (filters : gmap string filter_value) : outcome nat :=
  total_curves_loop curve_data filters 0.

(** The second loop of [before_task]. *)
Definition total_configs {X C} (strategies : dict (X * list C)) : nat :=
  fold_left (fun total '(_, (_, configs)) => total + length configs) strategies 0.

(** [int(np.ceil(np.sqrt(n)))]: the exact integer ceiling of the square
    root, which is what the binary64 computation returns for [n] below
    2^52. *)
Definition ceil_sqrt (n : nat) : nat :=
  let s := Nat.sqrt n in if s * s =? n then s else S s.

(** [int(np.ceil(n / c))] for [c ≠ 0]: the exact integer ceiling of the
    quotient, which is what the binary64 computation returns for [n] below
    2^52 and [c = ceil_sqrt n]. *)
Definition ceil_div (n c : nat) : nat :=
  n / c + (if n mod c =? 0 then 0 else 1).

(** The local variables of [before_task] once the layout is known. *)
Record layout : Type := MkLayout {
  l_total_curves : nat;
  l_total_configs : nat;
  num_axes : nat;
  cols : nat;
  rows : nat;
}.

(** [before_task] up to and including the computation of [rows]. *)
Definition before_task_layout {X Y C} (curve_data : dict (list string * list string * X))
    (strategies : dict (Y * list C)) (filters : gmap string filter_value)
  : outcome layout :=
  total_curves ← total_curves curve_data filters;
  let total_configs := total_configs strategies in
  let num_axes := total_curves * total_configs in
  let cols := ceil_sqrt num_axes in
  if cols =? 0 then Raise ZeroDivisionError
  else
    let rows := ceil_div num_axes cols in
    Ok (MkLayout total_curves total_configs num_axes cols rows).

(** [plt.subplots(rows, cols, figsize=figsize)]: a new figure with
    [rows * cols] blank panels; a grid without rows or columns is
    refused. *)
Definition plt_subplots (rows cols : nat) (figsize : nat * nat) : M Figure := fun w =>
  if rows =? 0 then
    (Raise (ValueError "Number of rows must be a positive integer, not 0"), w)
  else if cols =? 0 then
    (Raise (ValueError "Number of columns must be a positive integer, not 0"), w)
  else
    let first := length (axes_heap w) in
    let fig := MkFigure rows cols figsize (seq first (rows * cols)) None None false in
    (Ok fig, with_axes_heap (fun h => h ++ replicate (rows * cols) blank_axes) w).

(** [generator(array)]: a generator that has yet to yield every item. *)
Definition generator (array : list nat) : list nat := array.

Definition before_task {X Y C} (curve_data : dict (list string * list string * X))
    (strategies : dict (Y * list C)) (filters : gmap string filter_value) : M unit :=
  l ← lift (before_task_layout curve_data strategies filters);
  fig ← plt_subplots (rows l) (cols l) (cols l * 4, rows l * 4);
  modify (with_self (set_figure (Some fig))) ;;
  modify (with_self (set_axes (Some (generator (fig_axes fig))))).

(** ** [before_strategy] and [after_strategy] *)

(** [self.results = {}]: a new, empty accumulator. *)
Definition new_results : M nat := fun w =>
  let r := length (dicts w) in
  (Ok r, with_self (set_results (Some r)) (with_dicts (fun h => h ++ [[]]) w)).

Definition set_callbacks (strategy : nat)
    (v : option (list strategy_callback_instance)) : M unit :=
  s ← deref strategies strategy;
  modify (with_strategies (fun h => <[strategy := MkStrategy (strategy_str s) v]> h)).

Definition before_strategy (model metric eval_set : string) (strategy : nat) : M unit :=
  r ← new_results;
  cls ← gets (fun w => strategy_callback (self w));
  let new_callback := MkInstance cls r in
  s ← deref strategies strategy;
  match callbacks s with
  | Some (c :: cs) => set_callbacks strategy (Some ((c :: cs) ++ [new_callback]))
  | Some [] | None => set_callbacks strategy (Some [new_callback])
  end.

(** [next(self.axes)] *)
Definition next_axes : M nat := fun w =>
  match axes (self w) with
  | None => (Raise TypeError, w)
  | Some [] => (Raise StopIteration, w)
  | Some (ax :: rest) => (Ok ax, with_self (set_axes (Some rest)) w)
  end.

(** [**self.results] *)
Definition unpack_results : M results_dict :=
  r ← gets (fun w => results (self w));
  match r with
  | None => raise TypeError
  | Some r => deref dicts r
  end.

(** [strategy.callbacks.pop()] *)
Definition callbacks_pop (strategy : nat) : M unit :=
  s ← deref strategies strategy;
  match callbacks s with
  | None => raise AttributeError
  | Some [] => raise IndexError
  | Some (c :: cs) => set_callbacks strategy (Some (removelast (c :: cs)))
  end.

Definition newline : string := String (ascii_of_nat 10) EmptyString.

Definition panel_title (strategy_str model metric eval_set : string) : string :=
  (strategy_str +:+ newline +:+ model +:+ "-" +:+ metric +:+ "-" +:+ eval_set)%string.

Definition after_strategy (model metric eval_set : string) (strategy : nat) : M unit :=
  ax ← next_axes;
  kwargs ← unpack_results;
  call_plot_lines "iter" ax kwargs ;;
  leg ← gets (fun w => legend (self w));
  match leg with
  | None =>
      l ← ax_get_legend_handles_labels ax;
      modify (with_self (set_legend (Some l)))
  | Some _ => mret tt
  end ;;
  s ← deref strategies strategy;
  ax_set_title ax (panel_title (strategy_str s) model metric eval_set) ;;
  callbacks_pop strategy.

(** ** [after_task] *)

Definition starts_with_sep (s : string) : bool :=
  match s with
  | String c _ => Ascii.eqb c "/"%char
  | EmptyString => false
  end.

Fixpoint ends_with_sep (s : string) : bool :=
  match s with
  | EmptyString => false
  | String c EmptyString => Ascii.eqb c "/"%char
  | String _ r => ends_with_sep r
  end.

(** [os.path.join(a, b)] (POSIX). *)
Definition os_path_join (a : option string) (b : string) : outcome string :=
  match a with
  | None => Raise TypeError
  | Some a =>
      if starts_with_sep b then Ok b
      else if String.eqb a "" || ends_with_sep a then Ok (a +:+ b)%string
      else Ok (a +:+ "/" +:+ b)%string
  end.

(** An attribute of [self.figure], or a method call on it. *)
Definition figure_update (f : Figure → Figure) : M unit :=
  fig ← gets (fun w => figure (self w));
  match fig with
  | None => raise AttributeError
  | Some fig => modify (with_self (set_figure (Some (f fig))))
  end.

(** [sep in s] *)
Fixpoint has_sep (s : string) : bool :=
  match s with
  | EmptyString => false
  | String c r => Ascii.eqb c "/"%char || has_sep r
  end.

(** [s == sep * len(s)] *)
Fixpoint all_sep (s : string) : bool :=
  match s with
  | EmptyString => true
  | String c r => Ascii.eqb c "/"%char && all_sep r
  end.

(** [p[:p.rfind(sep) + 1]] *)
Fixpoint up_to_last_sep (p : string) : string :=
  match p with
  | EmptyString => EmptyString
  | String c r =>
      if has_sep r then String c (up_to_last_sep r)
      else if Ascii.eqb c "/"%char then String c EmptyString
      else EmptyString
  end.

(** [s.rstrip(sep)] *)
Fixpoint rstrip_sep (s : string) : string :=
  match s with
  | EmptyString => EmptyString
  | String c r => if all_sep (String c r) then EmptyString else String c (rstrip_sep r)
  end.

(** [os.path.dirname(p)] (POSIX). *)
Definition os_path_dirname (p : string) : string :=
  let head := up_to_last_sep p in
  if negb (String.eqb head "") && negb (all_sep head) then rstrip_sep head
  else head.

(** The directory called [d] exists: the current directory (the empty
    name) and the root always do. *)
Definition dir_exists (d : string) (w : World) : bool :=
  all_sep d || bool_decide (d ∈ directories w).

(** [self.figure.savefig(fname)]: the file is written, which the store
    records with the destination and what is drawn, unless its directory
    does not exist. *)
Definition figure_savefig (fname : string) : M unit :=
  fig ← gets (fun w => figure (self w));
  match fig with
  | None => raise AttributeError
  | Some fig =>
      found ← gets (dir_exists (os_path_dirname fname));
      if (found : bool) then
        modify (fun w =>
          with_saved (fun l =>
            l ++ [(fname, fig, omap (fun r => axes_heap w !! r) (fig_axes fig))]) w)
      else raise FileNotFoundError
  end.

Definition after_task : M unit :=
  cls ← gets (fun w => strategy_callback (self w));
  figure_update (fun f =>
    MkFigure (fig_rows f) (fig_cols f) (fig_size f) (fig_axes f)
             (Some (name cls)) (fig_legend f) (fig_tight_layout f)) ;;
  leg ← gets (fun w => legend (self w));
  match leg with
  | None => raise TypeError
  | Some l =>
      figure_update (fun f =>
        MkFigure (fig_rows f) (fig_cols f) (fig_size f) (fig_axes f)
                 (fig_suptitle f) (Some l) (fig_tight_layout f))
  end ;;
  figure_update (fun f =>
    MkFigure (fig_rows f) (fig_cols f) (fig_size f) (fig_axes f)
             (fig_suptitle f) (fig_legend f) true) ;;
  let file_name := file_name cls in
  p ← gets (fun w => path (self w));
  fname ← lift (os_path_join p file_name);
  figure_savefig fname.

(** ** The strategy driver *)

(** Modelled from the spec: the iterative strategy is not part of
    callbacks.py.  Per iteration it invokes [before_iter] on every observer
    registered in its [callbacks] list, in list order, and collects the
    stop votes. *)
Definition instance_before_iter (a : iter_args) (i : strategy_callback_instance)
  : M bool :=
  d ← deref dicts (inst_results i);
  '(d', vote) ← lift (before_iter (inst_class i) a d);
  modify (with_dicts (fun h => <[inst_results i := d']> h)) ;;
  mret vote.

Fixpoint notify_each (a : iter_args) (l : list strategy_callback_instance) : M bool :=
  match l with
  | [] => mret false
  | i :: r =>
      v ← instance_before_iter a i;
      vs ← notify_each a r;
      mret (v || vs)
  end.

Definition notify_before_iter (strategy : nat) (a : iter_args) : M bool :=
  s ← deref strategies strategy;
  notify_each a (default [] (callbacks s)).

(** ** The calls a task driver makes *)

(** One lifecycle call.  The driver calls the four hooks of the
    orchestration callback; between [before_strategy] and [after_strategy]
    the strategy notifies its observers once per iteration. *)
Inductive hook {X Y C : Type} : Type :=
  | BeforeTask (curve_data : dict (list string * list string * X))
               (strategies : dict (Y * list C))
               (filters : gmap string filter_value)
  | BeforeStrategy (model metric eval_set : string) (strategy : nat)
  | BeforeIter (strategy : nat) (a : iter_args)
  | AfterStrategy (model metric eval_set : string) (strategy : nat)
  | AfterTask.
Arguments hook : clear implicits.

Definition call {X Y C} (h : hook X Y C) : M unit :=
  match h with
  | BeforeTask curve_data strategies filters =>
      before_task curve_data strategies filters
  | BeforeStrategy model metric eval_set strategy =>
      before_strategy model metric eval_set strategy
  | BeforeIter strategy a => notify_before_iter strategy a ;; mret tt
  | AfterStrategy model metric eval_set strategy =>
      after_strategy model metric eval_set strategy
  | AfterTask => after_task
  end.

(** The store after a sequence of calls.  A call that raises leaves the
    store as it was at the [raise] and the sequence goes on: what a driver
    that stops at the first exception does is a prefix of it. *)
Definition exec {X Y C} (hs : list (hook X Y C)) (w : World) : World :=
  foldl (fun w h => (call h w).2) w hs.

Definition is_after_strategy {X Y C} (h : hook X Y C) : bool :=
  match h with AfterStrategy _ _ _ _ => true | _ => false end.

Definition is_before_task {X Y C} (h : hook X Y C) : bool :=
  match h with BeforeTask _ _ _ => true | _ => false end.

(** The number of [after_strategy] calls in a sequence. *)
Definition after_strategy_calls {X Y C} (hs : list (hook X Y C)) : nat :=
  length (List.filter is_after_strategy hs).

(** * Vocabulary of the statements *)

(** ** Metric aggregators *)

(** The series each aggregator tracks. *)
Definition tracked (c : callback_class) : list string :=
  match c with
  | PatienceStrategyCallback => ["iter"; "iter_wo_improvement"; "patience"]
  | LearningCurveStrategyCallback => ["iter"; "error"]
  end.

(** The values a call contributes to a tracked series. *)
Definition contribution (k : string) (a : iter_args) : scalar :=
  if String.eqb k "iter" then PyInt (arg_iter a)
  else if String.eqb k "iter_wo_improvement" then PyInt (arg_iter_wo_improvement a)
  else if String.eqb k "patience" then PyInt (arg_patience a)
  else PyFloat (arg_error a).

(** The series called [k] in an accumulator; an absent key has no values. *)
Definition series (k : string) (d : results_dict) : list scalar :=
  default [] (get k d).

(** The accumulator an aggregator of class [c] has built from the calls
    [xs]: nothing before the first call, then one series per tracked name,
    in the order of their creation. *)
Definition accumulated (c : callback_class) (xs : list iter_args) : results_dict :=
  match xs with
  | [] => []
  | _ :: _ => (fun k => (k, contribution k <$> xs)) <$> tracked c
  end.

(** ** Line plots *)

(** The panel [ax] replaced by [a']. *)
Definition put_axes (ax : nat) (a' : Axes) (w : World) : World :=
  with_axes_heap (fun h => <[ax := a']> h) w.

(** One line per series, each against [x] and under its own label. *)
Definition lines_of (x : list scalar) (kwargs : results_dict) : list Line :=
  (fun '(label, line) => MkLine x line label) <$> kwargs.

(** Every series of [kwargs] holds [n] values. *)
Definition same_length (n : nat) (kwargs : results_dict) : Prop :=
  Forall (fun e => length e.2 = n) kwargs.

(** The lines the loop of [plot_lines] draws over series as long as [x]:
    none when they are empty, one per series otherwise. *)
Definition drawn (x : list scalar) (kwargs : results_dict) : list Line :=
  match x with
  | [] => []
  | _ :: _ => lines_of x kwargs
  end.

Definition add_lines (ls : list Line) (a : Axes) : Axes :=
  MkAxes (ax_lines a ++ ls) (ax_legend_visible a)
         (ax_xlabel a) (ax_ylabel a) (ax_grid a) (ax_title a).

(** The panel a [plot_lines] that returns leaves behind. *)
Definition plotted (x_label : string) (x : list scalar) (kwargs : results_dict)
    (a : Axes) : Axes :=
  MkAxes (ax_lines a ++ drawn x (remove x_label kwargs)) (Some false)
         x_label x_label true (ax_title a).

(** ** Grid sizing in [before_task] *)

(** The range of [num_axes] over which the binary64 computation of [cols]
    and [rows] returns the exact integers. *)
Definition binary64_exact (n : nat) : Prop := (Z.of_nat n < 2 ^ 52)%Z.

(** [c] is the ceiling of the square root of [n]. *)
Definition is_ceil_sqrt (n c : nat) : Prop :=
  n ≤ c * c ∧ ∀ c', n ≤ c' * c' → c ≤ c'.

(** [r] is the ceiling of [n / c]. *)
Definition is_ceil_div (n c r : nat) : Prop :=
  n ≤ r * c ∧ ∀ r', n ≤ r' * c → r ≤ r'.

(** A model is counted unless a truthy [models] filter leaves it out. *)
Definition included (f_models : filter_value) (model : string) : bool :=
  negb (truthy f_models && negb (bool_decide (model ∈ filter_items f_models))).

(** The names of one axis that count: all of them under a falsy filter,
    those also listed by the filter otherwise. *)
Definition effective (names : list string) (flt : filter_value) : gset string :=
  if truthy flt
  then list_to_set names ∩ list_to_set (filter_items flt)
  else list_to_set names.

(** The sum the specification describes. *)
Definition curves_sum {X} (curve_data : dict (list string * list string * X))
    (f_models f_metrics f_eval_sets : filter_value) : nat :=
  sum_list ((fun '(model, (eval_sets, metrics, _)) =>
               if included f_models model
               then size (effective metrics f_metrics)
                    * size (effective eval_sets f_eval_sets)
               else 0) <$> curve_data).

(** The per-model lists of a [curve_data] are set-like. *)
Definition set_like {X} (curve_data : dict (list string * list string * X)) : Prop :=
  Forall (fun '(_, (eval_sets, metrics, _)) => NoDup eval_sets ∧ NoDup metrics)
         curve_data.

(** The layout [before_task] computes from a [total_curves]. *)
Definition layout_of (total_curves total_configs : nat) : layout :=
  let n := total_curves * total_configs in
  MkLayout total_curves total_configs n (ceil_sqrt n) (ceil_div n (ceil_sqrt n)).

(** The figure [before_task] makes for a layout, its panels allocated
    from [first] on. *)
Definition figure_of (l : layout) (first : nat) : Figure :=
  MkFigure (rows l) (cols l) (cols l * 4, rows l * 4)
           (seq first (rows l * cols l)) None None false.

(** The store after a successful [before_task]. *)
Definition started (l : layout) (w : World) : World :=
  let fig := figure_of l (length (axes_heap w)) in
  MkWorld
    (MkCallback (strategy_callback (self w)) (path (self w)) (Some fig)
                (Some (fig_axes fig)) (legend (self w)) (results (self w)))
    (dicts w)
    (axes_heap w ++ replicate (rows l * cols l) blank_axes)
    (strategies w) (saved w) (directories w).

(** ** Failures of [before_task] *)

(** Some model of [curve_data] passes the [models] filter. *)
Definition reaches {X} (fm : filter_value)
    (curve_data : dict (list string * list string * X)) : bool :=
  existsb (fun e => included fm e.1) curve_data.

(** The exception [before_task] raises when a filter key is absent. *)
Definition missing_key_error {X} (filters : gmap string filter_value)
    (curve_data : dict (list string * list string * X)) : exn :=
  match filters !! "models" with
  | None =>
      match curve_data with
      | [] => ZeroDivisionError
      | _ :: _ => KeyError "models"
      end
  | Some fm =>
      if reaches fm curve_data then
        match filters !! "metrics" with
        | None => KeyError "metrics"
        | Some _ => KeyError "eval_sets"
        end
      else ZeroDivisionError
  end.

(** ** Invariants of store transformers *)

(** [m] keeps [I], whether it returns or raises. *)
Definition preserves {A} (I : World → Prop) (m : M A) : Prop :=
  ∀ w, I w → I (m w).2.

(** An invariant that does not read the panels survives every panel
    update; likewise for the other parts of the store. *)
Definition ignores_axes_heap (I : World → Prop) : Prop :=
  ∀ g w, I w → I (with_axes_heap g w).
Definition ignores_strategies (I : World → Prop) : Prop :=
  ∀ g w, I w → I (with_strategies g w).
Definition ignores_dicts (I : World → Prop) : Prop :=
  ∀ g w, I w → I (with_dicts g w).
Definition ignores_saved (I : World → Prop) : Prop :=
  ∀ g w, I w → I (with_saved g w).

(** An invariant that does not read the panel [ax]. *)
Definition ignores_panel (ax : nat) (I : World → Prop) : Prop :=
  ∀ a w, I w → I (put_axes ax a w).

(** Invariants that do not read one field of the callback instance. *)
Definition ignores_figure (I : World → Prop) : Prop :=
  ∀ v w, I w → I (with_self (set_figure v) w).
Definition ignores_axes (I : World → Prop) : Prop :=
  ∀ v w, I w → I (with_self (set_axes v) w).
Definition ignores_legend (I : World → Prop) : Prop :=
  ∀ v w, I w → I (with_self (set_legend v) w).
Definition ignores_results (I : World → Prop) : Prop :=
  ∀ v w, I w → I (with_self (set_results v) w).

(** [after_strategy] once it has its panel. *)
Definition after_panel (model metric eval_set : string) (strategy ax : nat) : M unit :=
  kwargs ← unpack_results;
  call_plot_lines "iter" ax kwargs ;;
  leg ← gets (fun w => legend (self w));
  match leg with
  | None =>
      l ← ax_get_legend_handles_labels ax;
      modify (with_self (set_legend (Some l)))
  | Some _ => mret tt
  end ;;
  s ← deref strategies strategy;
  ax_set_title ax (panel_title (strategy_str s) model metric eval_set) ;;
  callbacks_pop strategy.

(** ** Running a hook to its normal return *)

(** The strategy after [before_strategy]: one more observer, bound to the
    accumulator [r]. *)
Definition attached (cls : callback_class) (r : nat) (s : Strategy) : Strategy :=
  MkStrategy (strategy_str s)
    (Some (default [] (callbacks s) ++ [MkInstance cls r])).

(** The panel with its title set. *)
Definition titled (t : string) (a : Axes) : Axes :=
  MkAxes (ax_lines a) (ax_legend_visible a) (ax_xlabel a) (ax_ylabel a)
         (ax_grid a) t.

(** The strategy after [after_strategy]: its last observer removed. *)
Definition detached (s : Strategy) : Strategy :=
  MkStrategy (strategy_str s) ((fun l => removelast l) <$> callbacks s).

(** ** The panel sequence within a task *)

(** No [before_task] among the calls. *)
Definition within_task {X Y C} (hs : list (hook X Y C)) : Prop :=
  Forall (fun h => is_before_task h = false) hs.

(** ** Saving the figure *)

(** The figure with the title of [after_task], and as [after_task]
    decorates it. *)
Definition entitled (cls : callback_class) (f : Figure) : Figure :=
  MkFigure (fig_rows f) (fig_cols f) (fig_size f) (fig_axes f)
           (Some (name cls)) (fig_legend f) (fig_tight_layout f).

Definition decorated (cls : callback_class) (L : Legend) (f : Figure) : Figure :=
  MkFigure (fig_rows f) (fig_cols f) (fig_size f) (fig_axes f)
           (Some (name cls)) (Some L) true.

(** The store after a [savefig] that wrote the file [fname]. *)
Definition saved_as (fname : string) (fig : Figure) (w : World) : World :=
  with_saved
    (fun l => l ++ [(fname, fig, omap (fun r => axes_heap w !! r) (fig_axes fig))])
    w.

(** An update of the figure that keeps its grid. *)
Definition keeps_grid (f : Figure → Figure) : Prop :=
  ∀ fig, fig_rows (f fig) = fig_rows fig ∧ fig_cols (f fig) = fig_cols fig
         ∧ fig_axes (f fig) = fig_axes fig.

(** ** Example inputs *)

(** The inputs of the sizing example: one model with two eval sets and two
    metrics, one strategy with two configurations, no restriction. *)
Definition example_curve_data : dict (list string * list string * unit) :=
  [("m1", (["train"; "val"], ["mse"; "mae"], tt))].
Definition example_strategies : dict (unit * list string) :=
  [("s1", (tt, ["cfg1"; "cfg2"]))].
Definition example_filters : gmap string filter_value :=
  <["models" := FList []]> (<["metrics" := FList []]>
    (<["eval_sets" := FList []]> ∅)).

(** A new callback with an output path and one strategy without
    observers; the directory of the path exists. *)
Definition example_world : World :=
  new_world (init PatienceStrategyCallback (Some "out")) [MkStrategy "S" None]
            ["out"].

(** The three calls of one strategy run with a single iteration. *)
Definition example_run : list (hook unit unit string) :=
  [ BeforeStrategy "m1" "mse" "train" 0;
    BeforeIter 0 (IterArgs 0 (S754_zero false) 0 5);
    AfterStrategy "m1" "mse" "train" 0 ].

Definition example_task : hook unit unit string :=
  BeforeTask example_curve_data example_strategies example_filters.

(** A second task on the same callback, with other iteration data. *)
Definition example_second_run : list (hook unit unit string) :=
  [ BeforeStrategy "m1" "mse" "train" 0;
    BeforeIter 0 (IterArgs 3 (S754_zero false) 2 7);
    AfterStrategy "m1" "mse" "train" 0 ].

Definition example_two_tasks : list (hook unit unit string) :=
  example_task :: example_run ++ [AfterTask; example_task] ++ example_second_run.

(** The example task after [before_strategy], and after one iteration. *)
Definition example_attached : World :=
  (before_strategy "m1" "mse" "train" 0 (exec [example_task] example_world)).2.

Definition example_iterated : World :=
  exec [BeforeIter 0 (IterArgs 0 (S754_zero false) 0 5) : hook unit unit string]
       example_attached.

(** ** Vocabulary of the further properties *)

(** The number of curves when no filter restricts anything. *)
Definition unfiltered_curves {X} (curve_data : dict (list string * list string * X))
  : nat :=
  sum_list ((fun '(_, (eval_sets, metrics, _)) => length metrics * length eval_sets)
              <$> curve_data).

(** The keys [before_task] reads from [filters]. *)
Definition filter_keys : list string := ["models"; "metrics"; "eval_sets"].

(** [m] keeps [I] whenever it raises. *)
Definition keeps_on_raise {A} (I : World → Prop) (m : M A) : Prop :=
  ∀ w e w', I w → m w = (Raise e, w') → I w'.

Definition is_after_task {X Y C} (h : hook X Y C) : bool :=
  match h with AfterTask => true | _ => false end.

Definition is_before_strategy {X Y C} (h : hook X Y C) : bool :=
  match h with BeforeStrategy _ _ _ _ => true | _ => false end.

Definition is_before_iter {X Y C} (h : hook X Y C) : bool :=
  match h with BeforeIter _ _ => true | _ => false end.

(** The [before_iter] calls [calls] made, in order, on the aggregator
    instance [i]: each one reads and updates the accumulator the instance
    was constructed with. *)
Fixpoint before_iter_on (i : strategy_callback_instance) (calls : list iter_args)
  : M (list bool) :=
  match calls with
  | [] => mret []
  | a :: rest =>
      v ← instance_before_iter a i;
      vs ← before_iter_on i rest;
      mret (v :: vs)
  end.

(** The panels of the current figure and the size of the panel store. *)
Definition grid_is (g : list nat) (n : nat) (w : World) : Prop :=
  (fig_axes <$> figure (self w)) = Some g ∧ length (axes_heap w) = n.

(** The rows and columns of the current figure. *)
Definition shape_is (r c : nat) (w : World) : Prop :=
  ∃ f, figure (self w) = Some f ∧ fig_rows f = r ∧ fig_cols f = c.

(** A truthy filter that lists none of the names, or no name at all. *)
Definition no_match (names : list string) (flt : filter_value) : Prop :=
  (truthy flt = true ∧ ∀ x, x ∈ names → x ∉ filter_items flt) ∨ names = [].

(** A model that adds no curve: left out by the [models] filter, or
    without a metric or an eval set that counts. *)
Definition adds_no_curve {X} (fm fmet fev : filter_value)
    (e : string * (list string * list string * X)) : Prop :=
  included fm e.1 = false ∨ no_match e.2.1.2 fmet ∨ no_match e.2.1.1 fev.

(** * Properties *)

(** ** Metric aggregators *)

Example patience_two_calls :
  before_iter_calls PatienceStrategyCallback
    [IterArgs 0 (S754_zero false) 0 5; IterArgs 1 (S754_zero false) 1 5] []
  = Ok ([("iter", [PyInt 0; PyInt 1]);
         ("iter_wo_improvement", [PyInt 0; PyInt 1]);
         ("patience", [PyInt 5; PyInt 5])], [false; false]).
Proof. reflexivity. Qed.

Lemma before_iter_accumulated c xs a :
  before_iter c a (accumulated c xs) = Ok (accumulated c (xs ++ [a]), false).
Proof.
  destruct c, xs as [|x xs]; cbn; rewrite ?fmap_app; reflexivity.
Qed.

Lemma before_iter_calls_accumulated c calls : ∀ xs,
  before_iter_calls c calls (accumulated c xs)
  = Ok (accumulated c (xs ++ calls), replicate (length calls) false).
Proof.
  induction calls as [|a calls IH]; intros xs; cbn.
  - by rewrite app_nil_r.
  - rewrite before_iter_accumulated. cbn. rewrite IH. cbn.
    by rewrite <- app_assoc.
Qed.

Lemma accumulated_series c xs k :
  k ∈ tracked c → series k (accumulated c xs) = contribution k <$> xs.
Proof.
  intros Hk. destruct xs as [|x xs]; [done|].
  destruct c; cbn in Hk; set_unfold; destruct_or!; subst; reflexivity.
Qed.

Lemma accumulated_untracked c xs k :
  k ∉ tracked c → get k (accumulated c xs) = None.
Proof.
  intros Hk. destruct xs as [|x xs]; [done|].
  destruct c; cbn in *; set_unfold;
    repeat match goal with
      | |- context [String.eqb k ?s] =>
          destruct (String.eqb_spec k s); [subst; tauto|]
      end; reflexivity.
Qed.

(** C4: K [before_iter] calls on an aggregator constructed over an empty
    accumulator succeed, each returning [False]; every tracked series then
    holds the K values of the calls in call order, no other key is present,
    and from the first call on the keys are exactly the tracked ones. *)
Theorem aggregator_series_after_calls (c : callback_class) (calls : list iter_args) :
  ∃ d,
    before_iter_calls c calls [] = Ok (d, replicate (length calls) false)
    ∧ (∀ k, k ∈ tracked c →
         series k d = contribution k <$> calls
         ∧ length (series k d) = length calls)
    ∧ (∀ k, k ∉ tracked c → get k d = None)
    ∧ (calls ≠ [] → keys d = tracked c).
Proof.
  exists (accumulated c calls). split; [|split; [|split]].
  - apply (before_iter_calls_accumulated c calls []).
  - intros k Hk. rewrite accumulated_series by done.
    by rewrite length_fmap.
  - intros k Hk. by apply accumulated_untracked.
  - destruct calls; [done|]. intros _. by destruct c.
Qed.

Lemma aggregator_series_after_calls_witness :
  ∃ d,
    before_iter_calls LearningCurveStrategyCallback
      [IterArgs 0 (S754_zero false) 0 5; IterArgs 1 (S754_zero true) 1 5] []
    = Ok (d, [false; false])
    ∧ series "iter" d = [PyInt 0; PyInt 1]
    ∧ series "error" d = [PyFloat (S754_zero false); PyFloat (S754_zero true)]
    ∧ get "patience" d = None.
Proof.
  destruct (aggregator_series_after_calls LearningCurveStrategyCallback
              [IterArgs 0 (S754_zero false) 0 5; IterArgs 1 (S754_zero true) 1 5])
    as (d & Hd & Htracked & Hother & _).
  exists d. split; [exact Hd|].
  split; [apply (Htracked "iter"); by apply (bool_decide_unpack _)|].
  split; [apply (Htracked "error"); by apply (bool_decide_unpack _)|].
  apply Hother. by apply (bool_decide_unpack _).
Defined.

(** ** Line plots *)

Lemma update_axes_spec ax f a w :
  axes_heap w !! ax = Some a →
  update_axes ax f w = (Ok tt, put_axes ax (f a) w).
Proof. intros H. unfold update_axes, deref, mbind, M_bind. by rewrite H. Qed.

Lemma update_axes_missing ax f w :
  axes_heap w !! ax = None → ∃ e, update_axes ax f w = (Raise e, w).
Proof.
  intros H. unfold update_axes, deref, mbind, M_bind. rewrite H. by eexists.
Qed.

Lemma put_axes_lookup ax a a' w :
  axes_heap w !! ax = Some a → axes_heap (put_axes ax a' w) !! ax = Some a'.
Proof. intros H. cbn. apply list_lookup_insert_eq. by eapply lookup_lt_Some. Qed.

Lemma put_axes_put_axes ax a b w :
  put_axes ax b (put_axes ax a w) = put_axes ax b w.
Proof. unfold put_axes, with_axes_heap. cbn. by rewrite list_insert_insert_eq. Qed.

Lemma put_axes_id ax a w :
  axes_heap w !! ax = Some a → put_axes ax (add_lines [] a) w = w.
Proof.
  intros H. unfold add_lines, put_axes, with_axes_heap. rewrite app_nil_r.
  destruct a, w; cbn in *. by rewrite list_insert_id.
Qed.

Lemma add_lines_add_lines ls ls' a :
  add_lines ls' (add_lines ls a) = add_lines (ls ++ ls') a.
Proof. unfold add_lines. cbn. by rewrite app_assoc. Qed.

Lemma drawn_nonempty x kwargs : x ≠ [] → drawn x kwargs = lines_of x kwargs.
Proof. by destruct x. Qed.

Lemma drawn_cons x label line kwargs :
  drawn x ((label, line) :: kwargs) = drawn x [(label, line)] ++ drawn x kwargs.
Proof. by destruct x. Qed.

(** A [lineplot] call that returns was given two series of one length. *)
Lemma sns_lineplot_inv x line ax label a w w' :
  axes_heap w !! ax = Some a →
  sns_lineplot x line ax label w = (Ok tt, w') →
  length line = length x
  ∧ w' = put_axes ax (add_lines (drawn x [(label, line)]) a) w.
Proof.
  intros Ha. unfold sns_lineplot.
  destruct x as [|x0 x], line as [|l0 line]; try done.
  - intros [= <-]. split; [done|]. by rewrite put_axes_id.
  - destruct (Nat.eqb_spec (length (x0 :: x)) (length (l0 :: line))) as [E|];
      [|done].
    rewrite (update_axes_spec _ _ a) by done. by intros [= <-].
Qed.

Lemma sns_lineplot_ok x line ax label a w :
  length line = length x → axes_heap w !! ax = Some a →
  sns_lineplot x line ax label w
  = (Ok tt, put_axes ax (add_lines (drawn x [(label, line)]) a) w).
Proof.
  intros Hlen Ha. unfold sns_lineplot.
  destruct x as [|x0 x], line as [|l0 line]; try done.
  - by rewrite put_axes_id.
  - rewrite Hlen, Nat.eqb_refl. by rewrite (update_axes_spec _ _ a).
Qed.

Lemma for_each_lineplot x ax kwargs : ∀ a w,
  same_length (length x) kwargs →
  axes_heap w !! ax = Some a →
  for_each kwargs (fun '(label, line) => sns_lineplot x line ax label) w
  = (Ok tt, put_axes ax (add_lines (drawn x kwargs) a) w).
Proof.
  induction kwargs as [|[label line] kwargs IH]; intros a w Hlen Ha; cbn.
  - replace (drawn x []) with ([] : list Line) by (by destruct x).
    by rewrite put_axes_id.
  - apply Forall_cons in Hlen as [Hl Hlen]. unfold mbind at 1, M_bind.
    rewrite (sns_lineplot_ok _ _ _ _ a) by done.
    erewrite IH by (done || by eapply put_axes_lookup).
    by rewrite put_axes_put_axes, add_lines_add_lines, <- drawn_cons.
Qed.

(** A loop that returns has met series of the length of [x] only. *)
Lemma for_each_lineplot_inv x ax kwargs : ∀ a w w',
  axes_heap w !! ax = Some a →
  for_each kwargs (fun '(label, line) => sns_lineplot x line ax label) w
  = (Ok tt, w') →
  same_length (length x) kwargs.
Proof.
  induction kwargs as [|[label line] kwargs IH]; intros a w w' Ha H;
    [constructor|].
  cbn in H. unfold mbind at 1, M_bind in H.
  destruct (sns_lineplot x line ax label w) as [[[]|e] w1] eqn:E; [|done].
  apply (sns_lineplot_inv _ _ _ _ a) in E as [Hl ->]; [|done].
  constructor; [done|]. eapply IH; [|exact H]. by eapply put_axes_lookup.
Qed.

(** Without the panel nothing is drawn and the loop, if it returns, has
    met empty series only. *)
Lemma for_each_lineplot_missing x ax kwargs : ∀ w o w',
  axes_heap w !! ax = None →
  for_each kwargs (fun '(label, line) => sns_lineplot x line ax label) w
  = (o, w') →
  w' = w.
Proof.
  induction kwargs as [|[label line] kwargs IH]; intros w o w' Ha H; cbn in H.
  - by injection H as <- <-.
  - unfold mbind at 1, M_bind in H.
    destruct (sns_lineplot x line ax label w) as [[[]|e] w1] eqn:E.
    + assert (w1 = w) as ->; [|by eapply IH].
      unfold sns_lineplot in E.
      destruct x as [|x0 x], line as [|l0 line]; try done.
      * by injection E as <-.
      * destruct (length (x0 :: x) =? length (l0 :: line)); [|done].
        by destruct (update_axes_missing ax
                       (fun a => MkAxes (ax_lines a ++ [MkLine (x0 :: x) (l0 :: line) label])
                                   (ax_legend_visible a) (ax_xlabel a) (ax_ylabel a)
                                   (ax_grid a) (ax_title a)) w Ha) as [e He];
          rewrite He in E.
    + injection H as <- <-. unfold sns_lineplot in E.
      destruct x as [|x0 x], line as [|l0 line]; try done;
        try (by injection E as <- <-).
      destruct (length (x0 :: x) =? length (l0 :: line));
        [|by injection E as <- <-].
      by destruct (update_axes_missing ax
                     (fun a => MkAxes (ax_lines a ++ [MkLine (x0 :: x) (l0 :: line) label])
                                 (ax_legend_visible a) (ax_xlabel a) (ax_ylabel a)
                                 (ax_grid a) (ax_title a)) w Ha) as [e' He];
        rewrite He in E; injection E as <- <-.
Qed.

Lemma remove_length {V} k (d : dict V) :
  contains k d = true → length (remove k d) = length d - 1.
Proof.
  unfold contains. induction d as [|[k' v] d IH]; cbn; [done|].
  destruct (String.eqb k k'); cbn; [lia|].
  intros H. rewrite IH by done. destruct d; [done|cbn; lia].
Qed.

Lemma Forall_remove {V} (P : string * V → Prop) k (d : dict V) :
  Forall P d → Forall P (remove k d).
Proof.
  induction 1 as [|[k' v] d Hh Ht IH]; cbn; [done|].
  destruct (String.eqb k k'); [done|]. by constructor.
Qed.

Lemma Forall_unremove {V} (P : string * V → Prop) k v (d : dict V) :
  get k d = Some v → P (k, v) → Forall P (remove k d) → Forall P d.
Proof.
  induction d as [|[k' v'] d IH]; cbn; [done|].
  destruct (String.eqb_spec k k') as [->|Hne].
  - intros [= ->] Hv Hd. by constructor.
  - intros Hg Hv Hd. apply Forall_cons in Hd as [Hh Hd].
    constructor; [done|]. by apply IH.
Qed.

Lemma plot_lines_ok x_label ax kwargs x a w :
  2 ≤ length kwargs → get x_label kwargs = Some x →
  same_length (length x) kwargs →
  axes_heap w !! ax = Some a →
  plot_lines x_label ax kwargs w
  = (Ok tt, put_axes ax (plotted x_label x kwargs a) w).
Proof.
  intros Hlen Hx Hsame Ha. unfold plot_lines.
  destruct (Nat.ltb_spec (length kwargs) 2); [lia|].
  unfold getitem, delitem, contains. rewrite Hx.
  unfold mbind at 1, M_bind, lift at 1. unfold mbind at 1, M_bind, lift at 1.
  unfold mbind at 1, M_bind.
  rewrite (for_each_lineplot _ _ _ a) by (done || by apply Forall_remove).
  unfold ax_legend_set_visible, ax_set_xlabel, ax_set_ylabel, ax_set_grid.
  repeat (unfold mbind at 1, M_bind;
          erewrite update_axes_spec by (by eapply put_axes_lookup);
          rewrite put_axes_put_axes).
  erewrite update_axes_spec by (by eapply put_axes_lookup).
  by rewrite put_axes_put_axes.
Qed.

(** A [plot_lines] that returns was given at least two series, the X
    series among them, all of one length, and an existing panel. *)
Lemma plot_lines_inv x_label ax kwargs w w' :
  plot_lines x_label ax kwargs w = (Ok tt, w') →
  2 ≤ length kwargs
  ∧ ∃ x a, get x_label kwargs = Some x
           ∧ same_length (length x) kwargs
           ∧ axes_heap w !! ax = Some a
           ∧ w' = put_axes ax (plotted x_label x kwargs a) w.
Proof.
  intros H.
  assert (2 ≤ length kwargs) as Hlen.
  { unfold plot_lines in H.
    destruct (Nat.ltb_spec (length kwargs) 2); [done|lia]. }
  split; [done|].
  destruct (get x_label kwargs) as [x|] eqn:Hx; last first.
  { unfold plot_lines, getitem in H. rewrite Hx in H.
    by destruct (length kwargs <? 2). }
  destruct (axes_heap w !! ax) as [a|] eqn:Ha.
  - assert (same_length (length x) kwargs) as Hsame.
    { apply (Forall_unremove _ x_label x); [done..|].
      unfold plot_lines in H.
      destruct (Nat.ltb_spec (length kwargs) 2); [lia|].
      unfold getitem, delitem, contains in H. rewrite Hx in H.
      unfold mbind at 1, M_bind, lift at 1 in H.
      unfold mbind at 1, M_bind, lift at 1 in H.
      unfold mbind at 1, M_bind in H.
      destruct (for_each _ _ w) as [[[]|e] w1] eqn:E; [|done].
      by eapply for_each_lineplot_inv. }
    exists x, a. rewrite (plot_lines_ok _ _ _ x a) in H by done.
    by injection H as <-.
  - exfalso. unfold plot_lines in H.
    destruct (Nat.ltb_spec (length kwargs) 2); [lia|].
    unfold getitem, delitem, contains in H. rewrite Hx in H.
    unfold mbind at 1, M_bind, lift at 1 in H.
    unfold mbind at 1, M_bind, lift at 1 in H.
    unfold mbind at 1, M_bind in H.
    destruct (for_each _ _ w) as [[[]|e] w1] eqn:E; [|done].
    apply for_each_lineplot_missing in E as ->; [|done].
    unfold mbind at 1, M_bind, ax_legend_set_visible in H.
    destruct (update_axes_missing ax
                (fun a => MkAxes (ax_lines a) (Some false) (ax_xlabel a)
                            (ax_ylabel a) (ax_grid a) (ax_title a)) w Ha)
      as [e He].
    by rewrite He in H.
Qed.

Lemma call_plot_lines_inv x_label ax kwargs w w' :
  call_plot_lines x_label ax kwargs w = (Ok tt, w') →
  clashes kwargs = false ∧ plot_lines x_label ax kwargs w = (Ok tt, w').
Proof. unfold call_plot_lines. by destruct (clashes kwargs). Qed.

(** Two series of different lengths, a series called "x", and empty
    series: of the three calls, each with the X series and one more, the
    first two raise and the third draws no line. *)
Lemma plot_lines_two_series_without_a_line :
  let w := MkWorld (init LearningCurveStrategyCallback None)
                   [] [blank_axes] [] [] [] in
  (∃ msg,
     call_plot_lines "iter" 0
       [("iter", [PyInt 0; PyInt 1]); ("error", [PyInt 7])] w
     = (Raise (ValueError msg), w))
  ∧ call_plot_lines "iter" 0 [("iter", [PyInt 0]); ("x", [PyInt 7])] w
    = (Raise TypeError, w)
  ∧ (call_plot_lines "iter" 0 [("iter", []); ("error", [])] w).1 = Ok tt
  ∧ (ax_lines
       <$> axes_heap
             (call_plot_lines "iter" 0 [("iter", []); ("error", [])] w).2 !! 0)
    = Some [].
Proof. cbv zeta. split; [by eexists|]. by vm_compute. Qed.

(** C5 (amended): a [plot_lines] call with a series called "self", "x" or
    "ax" is refused with a [TypeError]; otherwise, with fewer than two
    series it raises the usage error; either way every panel is as it was.
    With N ≥ 2 series that include the X series, none of them called
    "self", "x" or "ax" and all of one non-zero length, it returns
    normally, having added to the panel one line per remaining series
    (N − 1 of them), each drawn against the X values under its own label.
    When some series differs in length from the X series the call raises,
    and when all series are empty it returns without drawing a line. *)
Theorem plot_lines_line_count (x_label : string) (ax : nat)
    (kwargs : results_dict) (w : World) :
  (clashes kwargs = true →
     call_plot_lines x_label ax kwargs w = (Raise TypeError, w))
  ∧ (clashes kwargs = false → length kwargs < 2 →
       call_plot_lines x_label ax kwargs w
       = (Raise (ValueError "Not enough lines to construct line plot!"), w))
  ∧ (∀ x a,
       clashes kwargs = false →
       2 ≤ length kwargs → get x_label kwargs = Some x →
       x ≠ [] → same_length (length x) kwargs →
       axes_heap w !! ax = Some a →
       ∃ w',
         call_plot_lines x_label ax kwargs w = (Ok tt, w')
         ∧ (ax_lines <$> axes_heap w' !! ax)
           = Some (ax_lines a ++ lines_of x (remove x_label kwargs))
         ∧ length (lines_of x (remove x_label kwargs)) = length kwargs - 1)
  ∧ (∀ x,
       get x_label kwargs = Some x → ¬ same_length (length x) kwargs →
       ∃ e w', call_plot_lines x_label ax kwargs w = (Raise e, w'))
  ∧ (∀ a,
       clashes kwargs = false →
       2 ≤ length kwargs → get x_label kwargs = Some [] →
       same_length 0 kwargs →
       axes_heap w !! ax = Some a →
       ∃ w',
         call_plot_lines x_label ax kwargs w = (Ok tt, w')
         ∧ (ax_lines <$> axes_heap w' !! ax) = Some (ax_lines a)).
Proof.
  split; [|split; [|split; [|split]]].
  - intros Hcl. unfold call_plot_lines. by rewrite Hcl.
  - intros Hcl Hlen. unfold call_plot_lines, plot_lines. rewrite Hcl.
    by destruct (Nat.ltb_spec (length kwargs) 2); [|lia].
  - intros x a Hcl Hlen Hx Hne Hsame Ha. unfold call_plot_lines. rewrite Hcl.
    eexists. split; [by eapply plot_lines_ok|]. split.
    + erewrite put_axes_lookup by done. cbn. by destruct x.
    + unfold lines_of. rewrite length_fmap. apply remove_length.
      unfold contains. by rewrite Hx.
  - intros x Hx Hsame.
    destruct (call_plot_lines x_label ax kwargs w) as [[[]|e] w'] eqn:E;
      [|by eexists _, _].
    exfalso. apply Hsame.
    apply call_plot_lines_inv in E as [_ E].
    apply plot_lines_inv in E as (_ & x' & a & Hx' & Hs & _).
    by simplify_eq.
  - intros a Hcl Hlen Hx Hsame Ha. unfold call_plot_lines. rewrite Hcl.
    eexists. split; [by eapply (plot_lines_ok _ _ _ [])|].
    erewrite put_axes_lookup by done. cbn. by rewrite app_nil_r.
Qed.

Lemma plot_lines_line_count_witness :
  ∃ w',
    call_plot_lines "iter" 0
      [("iter", [PyInt 0; PyInt 1]); ("error", [PyInt 7; PyInt 6]);
       ("patience", [PyInt 5; PyInt 5])]
      (MkWorld (init LearningCurveStrategyCallback None) [] [blank_axes] [] [] [])
    = (Ok tt, w')
    ∧ (ax_lines <$> axes_heap w' !! 0)
      = Some [MkLine [PyInt 0; PyInt 1] [PyInt 7; PyInt 6] "error";
              MkLine [PyInt 0; PyInt 1] [PyInt 5; PyInt 5] "patience"].
Proof.
  destruct (proj1 (proj2 (proj2 (plot_lines_line_count "iter" 0
                     [("iter", [PyInt 0; PyInt 1]); ("error", [PyInt 7; PyInt 6]);
                      ("patience", [PyInt 5; PyInt 5])]
                     (MkWorld (init LearningCurveStrategyCallback None)
                              [] [blank_axes] [] [] []))))
              [PyInt 0; PyInt 1] blank_axes)
    as (w' & Hrun & Hlines & _);
    [reflexivity|cbn; lia|reflexivity|done|by repeat constructor|reflexivity|].
  exists w'. split; [exact Hrun|exact Hlines].
Defined.

(** ** Grid sizing in [before_task] *)

Lemma ceil_sqrt_spec n : is_ceil_sqrt n (ceil_sqrt n).
Proof.
  unfold is_ceil_sqrt, ceil_sqrt.
  pose proof (Nat.sqrt_spec n (Nat.le_0_l n)) as [Hlo Hhi].
  destruct (Nat.eqb_spec (Nat.sqrt n * Nat.sqrt n) n) as [He|Hne].
  - split; [lia|]. intros c' Hc'. nia.
  - split; [lia|]. intros c' Hc'. nia.
Qed.

Lemma ceil_sqrt_0 n : ceil_sqrt n = 0 ↔ n = 0.
Proof.
  split.
  - intros H. pose proof (ceil_sqrt_spec n) as [Hle _]. rewrite H in Hle. lia.
  - intros ->. reflexivity.
Qed.

Lemma ceil_div_spec n c : c ≠ 0 → is_ceil_div n c (ceil_div n c).
Proof.
  intros Hc. unfold is_ceil_div, ceil_div.
  pose proof (Nat.div_mod n c Hc) as Hdm.
  pose proof (Nat.mod_upper_bound n c Hc) as Hlt.
  generalize dependent (n / c). generalize dependent (n mod c).
  intros m Hlt q Hdm.
  destruct (Nat.eqb_spec m 0) as [He|Hne].
  - split; [nia|]. intros r' Hr'.
    destruct (Nat.le_gt_cases (q + 0) r') as [|Hgt]; [done|]. exfalso.
    assert ((r' + 1) * c ≤ q * c) by (apply Nat.mul_le_mono_r; lia). nia.
  - split; [nia|]. intros r' Hr'.
    destruct (Nat.le_gt_cases (q + 1) r') as [|Hgt]; [done|]. exfalso.
    assert (r' * c ≤ q * c) by (apply Nat.mul_le_mono_r; lia). nia.
Qed.

(** The grid has room for every panel. *)
Lemma grid_capacity n : n ≤ ceil_div n (ceil_sqrt n) * ceil_sqrt n.
Proof.
  destruct (decide (n = 0)) as [->|Hn]; [done|].
  apply ceil_div_spec. by rewrite ceil_sqrt_0.
Qed.

Lemma np_unique_NoDup l : NoDup (np_unique l).
Proof.
  unfold np_unique. rewrite merge_sort_Permutation. apply NoDup_remove_dups.
Qed.

Lemma elem_of_np_unique l x : x ∈ np_unique l ↔ x ∈ l.
Proof.
  unfold np_unique. rewrite merge_sort_Permutation. apply elem_of_remove_dups.
Qed.

Lemma np_intersect1d_size ar1 ar2 :
  length (np_intersect1d ar1 ar2)
  = size (list_to_set ar1 ∩ list_to_set ar2 : gset string).
Proof.
  rewrite <- (size_list_to_set (C := gset string) (np_intersect1d ar1 ar2)).
  - f_equal. apply set_eq. intros x.
    rewrite elem_of_list_to_set, elem_of_intersection, !elem_of_list_to_set.
    unfold np_intersect1d. rewrite list_elem_of_filter, elem_of_np_unique. tauto.
  - apply NoDup_filter, np_unique_NoDup.
Qed.

Lemma effective_size names flt :
  NoDup names →
  (if truthy flt then length (np_intersect1d names (filter_items flt))
   else length names) = size (effective names flt).
Proof.
  intros Hnd. unfold effective. destruct (truthy flt).
  - apply np_intersect1d_size.
  - by rewrite size_list_to_set.
Qed.

Section total_curves.
Context {X : Type}.
Implicit Types (curve_data : dict (list string * list string * X)).
Implicit Types (filters : gmap string filter_value).

(** With the three keys present the loop adds up [curves_sum]. *)
Lemma total_curves_loop_present curve_data filters fm fmet fev : ∀ acc,
  filters !! "models" = Some fm →
  filters !! "metrics" = Some fmet →
  filters !! "eval_sets" = Some fev →
  set_like curve_data →
  total_curves_loop curve_data filters acc
  = Ok (acc + curves_sum curve_data fm fmet fev).
Proof.
  intros acc Hm Hme Hev Hsl. revert acc.
  induction Hsl as [|[model [[es ms] x]] cd [Hes Hms] Hsl IH]; intros acc.
  - cbn. f_equal. unfold curves_sum. cbn. lia.
  - cbn. unfold filter_getitem. rewrite Hm, Hme, Hev. cbn.
    unfold curves_sum in *. cbn. unfold included at 1.
    destruct (truthy fm && negb (bool_decide (model ∈ filter_items fm))); cbn.
    + by rewrite IH.
    + rewrite IH. rewrite !effective_size by done. by rewrite Nat.add_assoc.
Qed.

(** No model is looked at, or none passes the [models] filter: the other
    two keys are never looked up and nothing is counted. *)
Lemma total_curves_loop_excluded curve_data filters fm : ∀ acc,
  filters !! "models" = Some fm →
  Forall (fun e => included fm e.1 = false) curve_data →
  total_curves_loop curve_data filters acc = Ok acc.
Proof.
  intros acc Hm Hex. revert acc.
  induction Hex as [|[model [[es ms] x]] cd Hh Hex IH]; intros acc; [done|].
  cbn. unfold filter_getitem. rewrite Hm. cbn.
  unfold included in Hh. cbn in Hh. apply negb_false_iff in Hh.
  rewrite Hh. apply IH.
Qed.

Lemma total_curves_loop_no_models curve_data filters acc :
  filters !! "models" = None → curve_data ≠ [] →
  total_curves_loop curve_data filters acc = Raise (KeyError "models").
Proof.
  intros Hm Hne. destruct curve_data as [|[model [[es ms] x]] cd]; [done|].
  cbn. unfold filter_getitem. by rewrite Hm.
Qed.

Lemma total_curves_loop_no_metrics curve_data filters fm : ∀ acc,
  filters !! "models" = Some fm → filters !! "metrics" = None →
  Exists (fun e => included fm e.1 = true) curve_data →
  total_curves_loop curve_data filters acc = Raise (KeyError "metrics").
Proof.
  intros acc Hm Hme Hex. revert acc.
  induction curve_data as [|[model [[es ms] x]] cd IH]; intros acc.
  - by apply Exists_nil in Hex.
  - cbn. unfold filter_getitem. rewrite Hm, Hme. cbn.
    destruct (truthy fm && negb (bool_decide (model ∈ filter_items fm))) eqn:E.
    + apply IH. apply Exists_cons in Hex as [Hh|Ht]; [|done].
      unfold included in Hh. cbn in Hh. rewrite E in Hh. done.
    + done.
Qed.

Lemma total_curves_loop_no_eval_sets curve_data filters fm fmet : ∀ acc,
  filters !! "models" = Some fm → filters !! "metrics" = Some fmet →
  filters !! "eval_sets" = None →
  Exists (fun e => included fm e.1 = true) curve_data →
  total_curves_loop curve_data filters acc = Raise (KeyError "eval_sets").
Proof.
  intros acc Hm Hme Hev Hex. revert acc.
  induction curve_data as [|[model [[es ms] x]] cd IH]; intros acc.
  - by apply Exists_nil in Hex.
  - cbn. unfold filter_getitem. rewrite Hm, Hme, Hev. cbn.
    destruct (truthy fm && negb (bool_decide (model ∈ filter_items fm))) eqn:E.
    + apply IH. apply Exists_cons in Hex as [Hh|Ht]; [|done].
      unfold included in Hh. cbn in Hh. rewrite E in Hh. done.
    + done.
Qed.

End total_curves.

(** [total_configs] is the sum of the configuration counts. *)
Lemma total_configs_sum {Y C} (strategies : dict (Y * list C)) :
  total_configs strategies
  = sum_list ((fun e => length e.2.2) <$> strategies).
Proof.
  unfold total_configs.
  enough (∀ acc,
    fold_left (fun total '(_, (_, configs)) => total + length configs) strategies acc
    = acc + sum_list ((fun e => length e.2.2) <$> strategies)) as H
    by apply (H 0).
  induction strategies as [|[k [y cs]] ss IH]; intros acc; cbn; [lia|].
  rewrite IH. lia.
Qed.

Lemma before_task_layout_unfold {X Y C} (curve_data : dict (list string * list string * X))
    (strategies : dict (Y * list C)) filters :
  before_task_layout curve_data strategies filters
  = match total_curves curve_data filters with
    | Raise e => Raise e
    | Ok tc =>
        if tc * total_configs strategies =? 0 then Raise ZeroDivisionError
        else Ok (layout_of tc (total_configs strategies))
    end.
Proof.
  unfold before_task_layout. destruct (total_curves _ _) as [tc|e]; cbn; [|done].
  destruct (Nat.eqb_spec (ceil_sqrt (tc * total_configs strategies)) 0) as [H|H];
    destruct (Nat.eqb_spec (tc * total_configs strategies) 0) as [H'|H'];
    try reflexivity.
  - exfalso. apply H'. by apply ceil_sqrt_0.
  - exfalso. apply H. by apply ceil_sqrt_0.
Qed.

Lemma layout_positive {X Y C} (curve_data : dict (list string * list string * X))
    (strategies : dict (Y * list C)) filters l :
  before_task_layout curve_data strategies filters = Ok l →
  num_axes l = l_total_curves l * l_total_configs l
  ∧ l_total_configs l = total_configs strategies
  ∧ total_curves curve_data filters = Ok (l_total_curves l)
  ∧ num_axes l ≠ 0
  ∧ is_ceil_sqrt (num_axes l) (cols l) ∧ cols l ≠ 0
  ∧ is_ceil_div (num_axes l) (cols l) (rows l) ∧ rows l ≠ 0.
Proof.
  rewrite before_task_layout_unfold.
  destruct (total_curves _ _) as [tc|e]; [|done].
  destruct (Nat.eqb_spec (tc * total_configs strategies) 0) as [|Hn]; [done|].
  intros [= <-]. cbn.
  assert (ceil_sqrt (tc * total_configs strategies) ≠ 0) as Hc
    by (by rewrite ceil_sqrt_0).
  pose proof (ceil_div_spec (tc * total_configs strategies) _ Hc) as Hr.
  repeat split; try done; try apply ceil_sqrt_spec; try apply Hr.
  intros H0. destruct Hr as [Hr _]. rewrite H0 in Hr. lia.
Qed.

Lemma before_task_unfold {X Y C} (curve_data : dict (list string * list string * X))
    (strategies : dict (Y * list C)) filters w :
  before_task curve_data strategies filters w
  = match before_task_layout curve_data strategies filters with
    | Raise e => (Raise e, w)
    | Ok l => (Ok tt, started l w)
    end.
Proof.
  unfold before_task. unfold mbind at 1, M_bind, lift.
  destruct (before_task_layout _ _ _) as [l|e] eqn:Hl; [|done].
  apply layout_positive in Hl as (_ & _ & _ & _ & _ & Hc & _ & Hr).
  unfold mbind at 1, M_bind, plt_subplots.
  destruct (Nat.eqb_spec (rows l) 0); [done|].
  destruct (Nat.eqb_spec (cols l) 0); [done|]. reflexivity.
Qed.

(** C2: with the three filter keys present and set-like per-model name
    lists, [total_curves] is the sum over the models not excluded of
    |metrics ∩ filter| × |eval sets ∩ filter| (the whole set under a falsy
    filter), [num_axes] is [total_curves × total_configs], and for a
    non-zero [num_axes] below 2^52 the grid has
    [cols = ceil(sqrt(num_axes))] columns and [rows = ceil(num_axes / cols)]
    rows; the example gives 4, 2, 8, 3 and 3. *)
Theorem before_task_grid_sizing :
  (∀ (X Y C : Type) (curve_data : dict (list string * list string * X))
     (strategies : dict (Y * list C)) (filters : gmap string filter_value)
     (fm fmet fev : filter_value),
     filters !! "models" = Some fm →
     filters !! "metrics" = Some fmet →
     filters !! "eval_sets" = Some fev →
     set_like curve_data →
     let tc := curves_sum curve_data fm fmet fev in
     let n := tc * total_configs strategies in
     total_curves curve_data filters = Ok tc
     ∧ (n ≠ 0 → binary64_exact n →
        ∃ c r,
          before_task_layout curve_data strategies filters
          = Ok (MkLayout tc (total_configs strategies) n c r)
          ∧ is_ceil_sqrt n c ∧ is_ceil_div n c r
          ∧ ∀ w, ∃ w' fig,
              before_task curve_data strategies filters w = (Ok tt, w')
              ∧ figure (self w') = Some fig
              ∧ fig_rows fig = r ∧ fig_cols fig = c
              ∧ length (fig_axes fig) = r * c))
  ∧ before_task_layout example_curve_data example_strategies example_filters
    = Ok (MkLayout 4 2 8 3 3).
Proof.
  split; [|by vm_compute].
  intros X Y C curve_data strategies filters fm fmet fev Hm Hme Hev Hsl tc n.
  assert (total_curves curve_data filters = Ok tc) as Htc.
  { unfold total_curves.
    by rewrite (total_curves_loop_present _ _ fm fmet fev). }
  split; [done|]. intros Hn _.
  assert (before_task_layout curve_data strategies filters
          = Ok (layout_of tc (total_configs strategies))) as Hl.
  { rewrite before_task_layout_unfold, Htc.
    by destruct (Nat.eqb_spec (tc * total_configs strategies) 0). }
  pose proof (layout_positive _ _ _ _ Hl) as (_ & _ & _ & _ & Hc & _ & Hr & _).
  exists (ceil_sqrt n), (ceil_div n (ceil_sqrt n)).
  split; [done|]. split; [done|]. split; [done|].
  intros w. rewrite before_task_unfold, Hl.
  eexists _, _. split; [done|]. split; [reflexivity|].
  split; [done|]. split; [done|]. apply length_seq.
Qed.

(** The same inputs restricted to the metric "mse". *)
Example metrics_filter_halves_the_grid :
  before_task_layout example_curve_data example_strategies
    (<["metrics" := FList ["mse"]]> example_filters)
  = Ok (MkLayout 2 2 4 2 2).
Proof. by vm_compute. Qed.

Lemma example_curve_data_set_like : set_like example_curve_data.
Proof.
  repeat constructor; by apply (bool_decide_unpack _).
Qed.

Lemma before_task_grid_sizing_witness :
  total_curves example_curve_data example_filters = Ok 4
  ∧ ∃ c r,
      before_task_layout example_curve_data example_strategies example_filters
      = Ok (MkLayout 4 2 8 c r)
      ∧ is_ceil_sqrt 8 c ∧ is_ceil_div 8 c r.
Proof.
  destruct (proj1 before_task_grid_sizing unit unit string
              example_curve_data example_strategies example_filters
              (FList []) (FList []) (FList []))
    as [Htc Hgrid];
    [reflexivity | reflexivity | reflexivity | apply example_curve_data_set_like|].
  split; [exact Htc|].
  destruct Hgrid as (c & r & Hl & Hc & Hr & _);
    [by vm_compute | by vm_compute |].
  exists c, r. split; [exact Hl|]. split; [exact Hc|exact Hr].
Defined.

(** C7: [total_configs] is the sum of the configuration counts of all
    strategies, a function of [strategies] alone: whatever the filters (and
    the curve data) of a [before_task] call, the [total_configs] of its
    layout is that sum, so that two calls with the same strategies compute
    the same value, and [num_axes = total_curves × total_configs] with the
    [total_curves] of the call. *)
Theorem total_configs_ignores_filters {X Y C : Type}
    (strategies : dict (Y * list C)) :
  total_configs strategies = sum_list ((fun e => length e.2.2) <$> strategies)
  ∧ (∀ (curve_data : dict (list string * list string * X))
       (filters : gmap string filter_value) (l : layout),
       before_task_layout curve_data strategies filters = Ok l →
       l_total_configs l = sum_list ((fun e => length e.2.2) <$> strategies)
       ∧ total_curves curve_data filters = Ok (l_total_curves l)
       ∧ num_axes l = l_total_curves l * l_total_configs l)
  ∧ (∀ (curve_data1 curve_data2 : dict (list string * list string * X))
       (filters1 filters2 : gmap string filter_value) (l1 l2 : layout),
       before_task_layout curve_data1 strategies filters1 = Ok l1 →
       before_task_layout curve_data2 strategies filters2 = Ok l2 →
       l_total_configs l2 = l_total_configs l1).
Proof.
  split; [apply total_configs_sum|]. split.
  - intros curve_data filters l Hl.
    apply layout_positive in Hl as (Hn & Hc & Htc & _).
    split; [by rewrite Hc, total_configs_sum|done].
  - intros curve_data1 curve_data2 filters1 filters2 l1 l2 H1 H2.
    apply layout_positive in H1 as (_ & Hc1 & _).
    apply layout_positive in H2 as (_ & Hc2 & _). congruence.
Qed.

(** The example with and without a restriction to the metric "mse": the
    number of curves halves, the number of configurations stays 2. *)
Lemma total_configs_ignores_filters_witness :
  total_configs example_strategies = 2
  ∧ ∃ l1 l2,
      before_task_layout example_curve_data example_strategies example_filters
      = Ok l1
      ∧ before_task_layout example_curve_data example_strategies
          (<["metrics" := FList ["mse"]]> example_filters)
        = Ok l2
      ∧ l_total_curves l1 = 4 ∧ l_total_curves l2 = 2
      ∧ l_total_configs l1 = 2 ∧ l_total_configs l2 = 2
      ∧ num_axes l1 = 4 * 2 ∧ num_axes l2 = 2 * 2.
Proof.
  destruct (total_configs_ignores_filters (X := unit) example_strategies)
    as (Hsum & Hcall & _).
  split; [by rewrite Hsum|].
  exists (MkLayout 4 2 8 3 3), (MkLayout 2 2 4 2 2).
  split; [by vm_compute|]. split; [by vm_compute|].
  split; [done|]. split; [done|].
  destruct (Hcall example_curve_data example_filters (MkLayout 4 2 8 3 3))
    as (Hc1 & _ & Hn1); [by vm_compute|].
  destruct (Hcall example_curve_data
              (<["metrics" := FList ["mse"]]> example_filters)
              (MkLayout 2 2 4 2 2))
    as (Hc2 & _ & Hn2); [by vm_compute|].
  split; [by rewrite Hc1|]. split; [by rewrite Hc2|].
  split; [exact Hn1|exact Hn2].
Defined.

(** ** Failures of [before_task] *)

(** C10: when the computed [num_axes] is zero, [cols] is zero and
    [before_task] raises [ZeroDivisionError] at the computation of [rows],
    leaving the callback without a grid; a task without panels cannot be
    started. *)
Theorem zero_axes_division_by_zero {X Y C : Type}
    (curve_data : dict (list string * list string * X))
    (strategies : dict (Y * list C)) (filters : gmap string filter_value)
    (tc : nat) (w : World) :
  total_curves curve_data filters = Ok tc →
  tc * total_configs strategies = 0 →
  ceil_sqrt (tc * total_configs strategies) = 0
  ∧ before_task_layout curve_data strategies filters = Raise ZeroDivisionError
  ∧ before_task curve_data strategies filters w = (Raise ZeroDivisionError, w).
Proof.
  intros Htc Hn. split; [by apply ceil_sqrt_0|].
  assert (before_task_layout curve_data strategies filters
          = Raise ZeroDivisionError) as Hl.
  { rewrite before_task_layout_unfold, Htc, Hn. reflexivity. }
  split; [done|]. by rewrite before_task_unfold, Hl.
Qed.

(** Empty curve data. *)
Lemma zero_axes_division_by_zero_witness :
  ceil_sqrt (0 * total_configs example_strategies) = 0
  ∧ before_task_layout ([] : dict (list string * list string * unit))
      example_strategies example_filters = Raise ZeroDivisionError
  ∧ before_task ([] : dict (list string * list string * unit))
      example_strategies example_filters example_world
    = (Raise ZeroDivisionError, example_world).
Proof.
  apply (zero_axes_division_by_zero [] example_strategies example_filters 0);
    reflexivity.
Defined.

(** Every model excluded by the [models] filter. *)
Example all_models_excluded :
  before_task example_curve_data example_strategies
    (<["models" := FList ["m2"]]> example_filters) example_world
  = (Raise ZeroDivisionError, example_world).
Proof. by vm_compute. Qed.

(** No configuration at all. *)
Example no_configurations :
  before_task example_curve_data ([("s1", (tt, []))] : dict (unit * list string))
    example_filters example_world
  = (Raise ZeroDivisionError, example_world).
Proof. by vm_compute. Qed.

(** A started task has at least one panel to give out. *)
Lemma before_task_started {X Y C : Type}
    (curve_data : dict (list string * list string * X))
    (strategies : dict (Y * list C)) (filters : gmap string filter_value) w w' :
  before_task curve_data strategies filters w = (Ok tt, w') →
  ∃ l, before_task_layout curve_data strategies filters = Ok l
       ∧ w' = started l w ∧ num_axes l ≠ 0.
Proof.
  rewrite before_task_unfold.
  destruct (before_task_layout _ _ _) as [l|e] eqn:Hl; [|done].
  intros [= <-]. exists l. split; [done|]. split; [done|].
  by apply layout_positive in Hl as (_ & _ & _ & ? & _).
Qed.

(** A call without any filter key on empty curve data does not raise a
    key-lookup error: no key is looked up, nothing is counted and the
    division by zero follows. *)
Lemma missing_keys_without_key_error :
  (∅ : gmap string filter_value) !! "models" = None
  ∧ (∅ : gmap string filter_value) !! "metrics" = None
  ∧ (∅ : gmap string filter_value) !! "eval_sets" = None
  ∧ before_task ([] : dict (list string * list string * unit))
      example_strategies ∅ example_world
    = (Raise ZeroDivisionError, example_world).
Proof. by vm_compute. Qed.

(** A call without the "metrics" key whose only model is excluded does not
    look the key up either. *)
Example missing_metrics_all_excluded :
  before_task example_curve_data example_strategies
    (<["models" := FList ["m2"]]> (<["eval_sets" := FList []]> ∅)) example_world
  = (Raise ZeroDivisionError, example_world).
Proof. by vm_compute. Qed.

(** C9 (amended): when one of the keys "models", "metrics", "eval_sets" is
    absent, [before_task] fails and allocates nothing: with the key-lookup
    error of the first absent key a model reaches ("models" for any model,
    "metrics" then "eval_sets" for a model that is not excluded), and with
    the division by zero of an empty grid when no model reaches an absent
    key. *)
Theorem missing_filter_key_fails {X Y C : Type}
    (curve_data : dict (list string * list string * X))
    (strategies : dict (Y * list C)) (filters : gmap string filter_value)
    (w : World) :
  filters !! "models" = None ∨ filters !! "metrics" = None
    ∨ filters !! "eval_sets" = None →
  before_task curve_data strategies filters w
  = (Raise (missing_key_error filters curve_data), w).
Proof.
  intros Hmiss. rewrite before_task_unfold, before_task_layout_unfold.
  unfold missing_key_error, total_curves.
  destruct (filters !! "models") as [fm|] eqn:Hm.
  - unfold reaches.
    destruct (existsb (fun e => included fm e.1) curve_data) eqn:Hex.
    + assert (Exists (fun e => included fm e.1 = true) curve_data) as Hex'.
      { apply existsb_exists in Hex as (e & He & Hi).
        apply Exists_exists. exists e. by rewrite list_elem_of_In. }
      destruct (filters !! "metrics") as [fmet|] eqn:Hme.
      * destruct Hmiss as [|[|Hev]]; [done..|].
        by rewrite (total_curves_loop_no_eval_sets _ _ fm fmet).
      * by rewrite (total_curves_loop_no_metrics _ _ fm).
    + rewrite (total_curves_loop_excluded _ _ fm); [done..|].
      apply Forall_forall. intros e He.
      destruct (included fm e.1) eqn:Hi; [|done].
      assert (existsb (fun e => included fm e.1) curve_data = true) as Hc
        by (apply existsb_exists; exists e; by rewrite <- list_elem_of_In).
      congruence.
  - destruct curve_data as [|e cd]; [done|].
    by rewrite total_curves_loop_no_models.
Qed.

Lemma missing_filter_key_fails_witness :
  before_task example_curve_data example_strategies
    (<["models" := FList []]> ∅) example_world
  = (Raise (KeyError "metrics"), example_world).
Proof.
  refine (eq_trans
            (missing_filter_key_fails example_curve_data example_strategies
               (<["models" := FList []]> ∅) example_world _) _).
  - right. left. reflexivity.
  - by vm_compute.
Defined.

(** ** Invariants of store transformers *)

Lemma preserves_ret {A} I (a : A) : preserves I (mret a).
Proof. by intros w. Qed.

Lemma preserves_raise {A} I e : preserves I (raise (A := A) e).
Proof. by intros w. Qed.

Lemma preserves_lift {A} I (o : outcome A) : preserves I (lift o).
Proof. by intros w. Qed.

Lemma preserves_gets {A} I (f : World → A) : preserves I (gets f).
Proof. by intros w. Qed.

Lemma preserves_deref {A} I (heap : World → list A) r : preserves I (deref heap r).
Proof. intros w Hw. unfold deref. by destruct (heap w !! r). Qed.

Lemma preserves_modify I g : (∀ w, I w → I (g w)) → preserves I (modify g).
Proof. intros Hg w Hw. by apply Hg. Qed.

Lemma preserves_bind {A B} I (m : M A) (k : A → M B) :
  preserves I m → (∀ a, preserves I (k a)) → preserves I (m ≫= k).
Proof.
  intros Hm Hk w Hw. unfold mbind, M_bind.
  specialize (Hm w Hw). destruct (m w) as [[a|e] w1]; [|done].
  by apply Hk.
Qed.

Lemma preserves_for_each {A} I (l : list A) body :
  (∀ a, preserves I (body a)) → preserves I (for_each l body).
Proof.
  intros Hb. induction l as [|a l IH]; cbn.
  - apply preserves_ret.
  - apply preserves_bind; [apply Hb|by intros _].
Qed.

Lemma ignores_axes_heap_panel I ax : ignores_axes_heap I → ignores_panel ax I.
Proof. intros H a w. apply H. Qed.

Lemma preserves_update_axes I ax f :
  ignores_panel ax I → preserves I (update_axes ax f).
Proof.
  intros HI. apply preserves_bind; [apply preserves_deref|].
  intros a. apply preserves_modify. intros w. apply HI.
Qed.

Lemma preserves_sns_lineplot I x line ax label :
  ignores_panel ax I → preserves I (sns_lineplot x line ax label).
Proof.
  intros HI. unfold sns_lineplot.
  destruct x as [|x0 x], line as [|l0 line];
    try apply preserves_ret; try apply preserves_raise.
  destruct (length (x0 :: x) =? length (l0 :: line));
    [by apply preserves_update_axes|apply preserves_raise].
Qed.

Lemma preserves_plot_lines I x ax kwargs :
  ignores_panel ax I → preserves I (plot_lines x ax kwargs).
Proof.
  intros HI. unfold plot_lines.
  destruct (length kwargs <? 2); [apply preserves_raise|].
  unfold ax_legend_set_visible, ax_set_xlabel, ax_set_ylabel, ax_set_grid.
  repeat first
    [ by apply preserves_update_axes
    | by apply preserves_sns_lineplot
    | apply preserves_lift
    | apply preserves_for_each; intros [? ?]
    | apply preserves_bind; [|intros ?] ].
Qed.

Lemma preserves_call_plot_lines I x ax kwargs :
  ignores_panel ax I → preserves I (call_plot_lines x ax kwargs).
Proof.
  intros HI. unfold call_plot_lines.
  destruct (clashes kwargs); [apply preserves_raise|by apply preserves_plot_lines].
Qed.

Lemma preserves_set_callbacks I strategy v :
  ignores_strategies I → preserves I (set_callbacks strategy v).
Proof.
  intros HI. apply preserves_bind; [apply preserves_deref|].
  intros s. apply preserves_modify. intros w. apply HI.
Qed.

Lemma preserves_callbacks_pop I strategy :
  ignores_strategies I → preserves I (callbacks_pop strategy).
Proof.
  intros HI. apply preserves_bind; [apply preserves_deref|].
  intros s. destruct (callbacks s) as [[|c cs]|];
    try apply preserves_raise. by apply preserves_set_callbacks.
Qed.

Lemma preserves_notify_before_iter I strategy a :
  ignores_dicts I → preserves I (notify_before_iter strategy a).
Proof.
  intros HI. apply preserves_bind; [apply preserves_deref|].
  intros s. induction (default [] (callbacks s)) as [|i l IH]; cbn.
  - apply preserves_ret.
  - apply preserves_bind.
    + unfold instance_before_iter.
      apply preserves_bind; [apply preserves_deref|]. intros d.
      apply preserves_bind; [apply preserves_lift|]. intros [d' v].
      apply preserves_bind; [|intros; apply preserves_ret].
      apply preserves_modify. intros w. apply HI.
    + intros v. apply preserves_bind; [apply IH|intros; apply preserves_ret].
Qed.

Lemma preserves_gets_bind {A B} I (f : World → A) (k : A → M B) :
  (∀ w, I w → I (k (f w) w).2) → preserves I (gets f ≫= k).
Proof. intros H w Hw. by apply H. Qed.

Lemma preserves_before_task {X Y C} I
    (curve_data : dict (list string * list string * X))
    (strategies : dict (Y * list C)) filters :
  ignores_figure I → ignores_axes I → ignores_axes_heap I →
  preserves I (before_task curve_data strategies filters).
Proof.
  intros Hf Ha Hh w Hw. rewrite before_task_unfold.
  destruct (before_task_layout _ _ _) as [l|e]; [|done]. cbn.
  apply (Ha (Some (fig_axes (figure_of l (length (axes_heap w)))))
            (with_self (set_figure (Some (figure_of l (length (axes_heap w)))))
               (with_axes_heap
                  (fun h => h ++ replicate (rows l * cols l) blank_axes) w))).
  apply Hf, Hh, Hw.
Qed.

Lemma preserves_before_strategy I model metric eval_set strategy :
  ignores_results I → ignores_dicts I → ignores_strategies I →
  preserves I (before_strategy model metric eval_set strategy).
Proof.
  intros Hr Hd Hs. unfold before_strategy.
  apply preserves_bind.
  { intros w Hw. cbn. apply (Hr _ (with_dicts _ w)), Hd, Hw. }
  intros r. apply preserves_bind; [apply preserves_gets|]. intros cls.
  apply preserves_bind; [apply preserves_deref|]. intros s.
  destruct (callbacks s) as [[|c cs]|]; by apply preserves_set_callbacks.
Qed.

Lemma preserves_figure_update I f :
  ignores_figure I → preserves I (figure_update f).
Proof.
  intros Hf. apply preserves_gets_bind. intros w Hw.
  destruct (figure (self w)); [|done]. apply Hf, Hw.
Qed.

Lemma preserves_figure_savefig I fname :
  ignores_saved I → preserves I (figure_savefig fname).
Proof.
  intros Hs. apply preserves_gets_bind. intros w Hw.
  destruct (figure (self w)); [|done].
  unfold gets, mbind, M_bind. destruct (dir_exists _ w); [apply Hs, Hw|done].
Qed.

(** [after_task] keeps what its updates of the figure keep, if saving
    keeps it too. *)
Lemma preserves_after_task_figure I :
  (∀ f, keeps_grid f → preserves I (figure_update f)) → ignores_saved I →
  preserves I after_task.
Proof.
  intros Hf Hs. unfold after_task.
  apply preserves_bind; [apply preserves_gets|]. intros cls.
  apply preserves_bind; [by apply Hf|]. intros _.
  apply preserves_bind; [apply preserves_gets|]. intros leg.
  apply preserves_bind.
  { destruct leg; [by apply Hf|apply preserves_raise]. }
  intros _. apply preserves_bind; [by apply Hf|]. intros _.
  apply preserves_bind; [apply preserves_gets|]. intros p.
  apply preserves_bind; [apply preserves_lift|]. intros fname.
  by apply preserves_figure_savefig.
Qed.

Lemma preserves_after_task I :
  ignores_figure I → ignores_saved I → preserves I after_task.
Proof.
  intros Hf Hs. apply preserves_after_task_figure; [|done].
  intros f _. by apply preserves_figure_update.
Qed.

Lemma after_strategy_unfold model metric eval_set strategy :
  after_strategy model metric eval_set strategy
  = next_axes ≫= after_panel model metric eval_set strategy.
Proof. reflexivity. Qed.

(** The panel-drawing part keeps any invariant that reads neither panels
    nor strategies, provided it does not read the legend either or it
    implies that a legend is already captured. *)
Lemma preserves_after_panel I model metric eval_set strategy ax :
  ignores_panel ax I → ignores_strategies I →
  (ignores_legend I ∨ ∀ w, I w → is_Some (legend (self w))) →
  preserves I (after_panel model metric eval_set strategy ax).
Proof.
  intros Hh Hs Hl. unfold after_panel.
  apply preserves_bind.
  { apply preserves_gets_bind. intros w Hw.
    destruct (results (self w)); [by apply preserves_deref|done]. }
  intros kwargs. apply preserves_bind; [by apply preserves_call_plot_lines|].
  intros _. apply preserves_gets_bind. intros w Hw.
  assert (∀ rest : M unit, preserves I rest →
            I ((mret tt ≫= (fun _ : unit => rest)) w).2) as Hsome.
  { intros rest Hrest. by apply Hrest. }
  assert (preserves I
    (s ← deref strategies strategy;
     ax_set_title ax (panel_title (strategy_str s) model metric eval_set) ;;
     callbacks_pop strategy)) as Hrest.
  { apply preserves_bind; [apply preserves_deref|]. intros s.
    apply preserves_bind; [by apply preserves_update_axes|].
    intros _. by apply preserves_callbacks_pop. }
  destruct (legend (self w)) as [L|] eqn:HL; [by apply Hsome|].
  destruct Hl as [Hl|Hl]; [|by destruct (Hl w Hw) as [? ?]; congruence].
  refine (preserves_bind I
            (l ← ax_get_legend_handles_labels ax;
             modify (with_self (set_legend (Some l))))
            (fun _ => _) _ _ w Hw); [|by intros _].
  apply preserves_bind.
  { unfold ax_get_legend_handles_labels.
    apply preserves_bind; [apply preserves_deref|intros; apply preserves_ret]. }
  intros a.
  apply preserves_modify. intros w'. apply Hl.
Qed.

Lemma preserves_after_strategy I model metric eval_set strategy :
  ignores_axes I → ignores_axes_heap I → ignores_strategies I →
  (ignores_legend I ∨ ∀ w, I w → is_Some (legend (self w))) →
  preserves I (after_strategy model metric eval_set strategy).
Proof.
  intros Ha Hh Hs Hl. rewrite after_strategy_unfold.
  apply preserves_bind;
    [|intros ax; apply preserves_after_panel;
       [by apply ignores_axes_heap_panel|done..]].
  intros w Hw. unfold next_axes.
  destruct (axes (self w)) as [[|ax rest]|]; [done| |done]. apply Ha, Hw.
Qed.

(** ** Running a hook to its normal return *)

Lemma bind_ok {A B} (m : M A) (k : A → M B) w a w1 :
  m w = (Ok a, w1) → (m ≫= k) w = k a w1.
Proof. intros H. unfold mbind, M_bind. by rewrite H. Qed.

Lemma bind_inv {A B} (m : M A) (k : A → M B) w b w' :
  (m ≫= k) w = (Ok b, w') →
  ∃ a w1, m w = (Ok a, w1) ∧ k a w1 = (Ok b, w').
Proof.
  unfold mbind, M_bind. destruct (m w) as [[a|e] w1]; [|done]. eauto.
Qed.

Lemma before_strategy_ok model metric eval_set strategy w s :
  strategies w !! strategy = Some s →
  before_strategy model metric eval_set strategy w
  = (Ok tt,
     MkWorld (set_results (Some (length (dicts w))) (self w))
             (dicts w ++ [[]]) (axes_heap w)
             (<[strategy := attached (strategy_callback (self w))
                              (length (dicts w)) s]> (strategies w))
             (saved w) (directories w)).
Proof.
  intros Hs. unfold before_strategy, new_results, set_callbacks, deref, gets,
    modify, mbind, M_bind. cbn. rewrite Hs.
  destruct s as [str [[|c cs]|]]; cbn; by rewrite Hs.
Qed.

Lemma deref_ok {A} (heap : World → list A) r a w :
  heap w !! r = Some a → deref heap r w = (Ok a, w).
Proof. intros H. unfold deref. by rewrite H. Qed.

Lemma unpack_results_ok w r kwargs :
  results (self w) = Some r → dicts w !! r = Some kwargs →
  unpack_results w = (Ok kwargs, w).
Proof.
  intros Hr Hd. unfold unpack_results.
  erewrite bind_ok by reflexivity. rewrite Hr. by apply deref_ok.
Qed.

Lemma callbacks_pop_ok strategy w s c cs :
  strategies w !! strategy = Some s → callbacks s = Some (c :: cs) →
  callbacks_pop strategy w
  = (Ok tt,
     with_strategies
       (fun h => <[strategy := MkStrategy (strategy_str s)
                                 (Some (removelast (c :: cs)))]> h) w).
Proof.
  intros Hs Hcb. unfold callbacks_pop.
  erewrite bind_ok by (by apply deref_ok). rewrite Hcb.
  unfold set_callbacks. by erewrite bind_ok by (by apply deref_ok).
Qed.

(** When the generator has a panel left, the accumulator holds the "iter"
    series and at least one more, all of one length, and the strategy
    carries an observer, [after_strategy] returns normally. *)
Lemma after_strategy_ok model metric eval_set strategy w ax rest r kwargs x a s c cs :
  axes (self w) = Some (ax :: rest) →
  results (self w) = Some r → dicts w !! r = Some kwargs →
  clashes kwargs = false →
  2 ≤ length kwargs → get "iter" kwargs = Some x →
  same_length (length x) kwargs →
  axes_heap w !! ax = Some a →
  strategies w !! strategy = Some s → callbacks s = Some (c :: cs) →
  after_strategy model metric eval_set strategy w
  = (Ok tt,
     MkWorld
       (MkCallback (strategy_callback (self w)) (path (self w)) (figure (self w))
          (Some rest)
          (Some (default (legend_handles_labels (plotted "iter" x kwargs a))
                         (legend (self w))))
          (results (self w)))
       (dicts w)
       (<[ax := titled (panel_title (strategy_str s) model metric eval_set)
                       (plotted "iter" x kwargs a)]> (axes_heap w))
       (<[strategy := detached s]> (strategies w))
       (saved w) (directories w)).
Proof.
  intros Hax Hr Hd Hcl Hlen Hx Hsame Ha Hs Hcb.
  assert (ax < length (axes_heap w)) as Hlt by (by eapply lookup_lt_Some).
  rewrite after_strategy_unfold.
  erewrite bind_ok by (unfold next_axes; by rewrite Hax).
  unfold after_panel.
  erewrite bind_ok by (by eapply unpack_results_ok).
  erewrite bind_ok
    by (unfold call_plot_lines; rewrite Hcl; by eapply plot_lines_ok).
  erewrite bind_ok by reflexivity.
  change (legend (self (put_axes ax (plotted "iter" x kwargs a)
                          (with_self (set_axes (Some rest)) w))))
    with (legend (self w)).
  destruct (legend (self w)) as [L|] eqn:HL.
  - erewrite bind_ok by reflexivity.
    erewrite bind_ok by (by apply deref_ok).
    erewrite bind_ok; last first.
    { unfold ax_set_title. apply update_axes_spec.
      by apply list_lookup_insert_eq. }
    erewrite callbacks_pop_ok by done.
    unfold put_axes, with_axes_heap, with_strategies, with_self, detached,
      titled, set_axes. cbn. rewrite list_insert_insert_eq, Hcb, HL.
    reflexivity.
  - erewrite bind_ok; last first.
    { erewrite bind_ok; last first.
      { unfold ax_get_legend_handles_labels.
        erewrite bind_ok; [reflexivity|].
        apply deref_ok. by apply list_lookup_insert_eq. }
      reflexivity. }
    erewrite bind_ok by (by apply deref_ok).
    erewrite bind_ok; last first.
    { unfold ax_set_title. apply update_axes_spec.
      by apply list_lookup_insert_eq. }
    erewrite callbacks_pop_ok by done.
    unfold put_axes, with_axes_heap, with_strategies, with_self, detached,
      titled, set_axes, set_legend. cbn. rewrite list_insert_insert_eq, Hcb.
    reflexivity.
Qed.

Lemma preserves_run {A} I (m : M A) w o w' :
  preserves I m → I w → m w = (o, w') → I w'.
Proof. intros Hm Hw E. specialize (Hm w Hw). by rewrite E in Hm. Qed.

Lemma callbacks_pop_inv strategy w w' s :
  strategies w !! strategy = Some s →
  callbacks_pop strategy w = (Ok tt, w') →
  (∃ c cs, callbacks s = Some (c :: cs))
  ∧ strategies w' = <[strategy := detached s]> (strategies w).
Proof.
  intros Hs. unfold callbacks_pop.
  erewrite bind_ok by (by apply deref_ok).
  destruct (callbacks s) as [[|c cs]|] eqn:Hcb; [done| |done].
  unfold set_callbacks. erewrite bind_ok by (by apply deref_ok).
  intros [= <-]. split; [eauto|]. unfold detached. by rewrite Hcb.
Qed.

(** What a normal return of [after_strategy] tells about the store it
    was called in. *)
Lemma after_strategy_returned model metric eval_set strategy w w' :
  after_strategy model metric eval_set strategy w = (Ok tt, w') →
  ∃ ax rest r kwargs x a s c cs,
    axes (self w) = Some (ax :: rest)
    ∧ results (self w) = Some r ∧ dicts w !! r = Some kwargs
    ∧ clashes kwargs = false
    ∧ 2 ≤ length kwargs ∧ get "iter" kwargs = Some x
    ∧ same_length (length x) kwargs
    ∧ axes_heap w !! ax = Some a
    ∧ strategies w !! strategy = Some s ∧ callbacks s = Some (c :: cs).
Proof.
  intros H. rewrite after_strategy_unfold in H.
  apply bind_inv in H as (ax & w1 & E1 & H).
  unfold next_axes in E1.
  destruct (axes (self w)) as [[|ax' rest]|] eqn:Hax; try done.
  injection E1 as <- <-. unfold after_panel in H.
  apply bind_inv in H as (kwargs & w2 & E2 & H).
  unfold unpack_results in E2.
  apply bind_inv in E2 as (r0 & w1' & Eg & E2). injection Eg as <- <-.
  cbn in E2. destruct (results (self w)) as [r|] eqn:Hr; [|done].
  unfold deref in E2. cbn in E2.
  destruct (dicts w !! r) as [kw|] eqn:Hd; [|done]. injection E2 as <- <-.
  apply bind_inv in H as ([] & w3 & E3 & H).
  apply call_plot_lines_inv in E3 as [Hcl E3].
  pose proof E3 as E3'.
  apply plot_lines_inv in E3' as (Hlen & x & a & Hx & Hsame & Ha & _).
  cbn in Ha.
  set (I := fun w0 => strategies w0 = strategies w).
  assert (∀ ax, ignores_panel ax I) as Hh by (by intros ? ? ?).
  assert (I w3) as Hw3
    by (revert E3; apply preserves_run; [by apply preserves_plot_lines|done]).
  apply bind_inv in H as (leg & w4 & E4 & H).
  assert (I w4) as Hw4 by (by injection E4 as <- <-).
  apply bind_inv in H as ([] & w5 & E5 & H).
  assert (I w5) as Hw5.
  { revert E5. apply preserves_run; [|done]. destruct leg.
    - apply preserves_ret.
    - apply preserves_bind.
      + unfold ax_get_legend_handles_labels.
        apply preserves_bind; [apply preserves_deref|intros; apply preserves_ret].
      + intros l. apply preserves_modify. by intros ? ?. }
  apply bind_inv in H as (s & w6 & E6 & H).
  unfold deref in E6.
  destruct (strategies w5 !! strategy) as [s'|] eqn:Hs; [|done].
  injection E6 as <- <-. rewrite Hw5 in Hs.
  apply bind_inv in H as ([] & w7 & E7 & H).
  assert (I w7) as Hw7
    by (revert E7; apply preserves_run; [by apply preserves_update_axes|done]).
  unfold callbacks_pop in H.
  erewrite bind_ok in H by (apply deref_ok; by rewrite Hw7).
  destruct (callbacks s') as [[|c cs]|] eqn:Hcb; [done| |done].
  by exists ax', rest, r, kw, x, a, s', c, cs.
Qed.

(** A normal return of [after_strategy] has removed the last observer of
    the strategy, and touched the strategies in no other way. *)
Lemma after_strategy_inv model metric eval_set strategy w w' s :
  strategies w !! strategy = Some s →
  after_strategy model metric eval_set strategy w = (Ok tt, w') →
  (∃ c cs, callbacks s = Some (c :: cs))
  ∧ strategies w' = <[strategy := detached s]> (strategies w).
Proof.
  intros Hs H. rewrite after_strategy_unfold in H.
  set (I := fun w0 => strategies w0 = strategies w).
  assert (∀ ax, ignores_panel ax I) as Hh by (by intros ? ? ?).
  assert (I w) as Hw by done.
  apply bind_inv in H as (ax & w1 & E1 & H).
  assert (I w1) as Hw1.
  { unfold next_axes in E1.
    destruct (axes (self w)) as [[|? ?]|]; simplify_eq. done. }
  unfold after_panel in H.
  apply bind_inv in H as (kwargs & w2 & E2 & H).
  assert (I w2) as Hw2.
  { revert E2. apply preserves_run; [|done]. apply preserves_gets_bind.
    intros w0 Hw0. destruct (results (self w0)); [by apply preserves_deref|done]. }
  apply bind_inv in H as ([] & w3 & E3 & H).
  assert (I w3) as Hw3
    by (revert E3; apply preserves_run;
        [by apply preserves_call_plot_lines|done]).
  apply bind_inv in H as (leg & w4 & E4 & H).
  assert (I w4) as Hw4 by (by injection E4 as <- <-).
  apply bind_inv in H as ([] & w5 & E5 & H).
  assert (I w5) as Hw5.
  { revert E5. apply preserves_run; [|done]. destruct leg.
    - apply preserves_ret.
    - apply preserves_bind.
      + unfold ax_get_legend_handles_labels.
        apply preserves_bind; [apply preserves_deref|intros; apply preserves_ret].
      + intros l. apply preserves_modify. by intros ? ?. }
  apply bind_inv in H as (s' & w6 & E6 & H).
  assert (I w6) as Hw6
    by (revert E6; apply preserves_run; [apply preserves_deref|done]).
  apply bind_inv in H as ([] & w7 & E7 & H).
  assert (I w7) as Hw7
    by (revert E7; apply preserves_run; [by apply preserves_update_axes|done]).
  unfold I in Hw7. rewrite <- Hw7. apply callbacks_pop_inv; [|done].
  by rewrite Hw7.
Qed.

(** ** Attaching and detaching the aggregator *)

Lemma keeps_on_raise_preserves {A} I (m : M A) :
  preserves I m → keeps_on_raise I m.
Proof. intros Hm w e w' Hw E. by eapply preserves_run. Qed.

Lemma keeps_on_raise_bind {A B} I (m : M A) (k : A → M B) :
  preserves I m → (∀ a, keeps_on_raise I (k a)) → keeps_on_raise I (m ≫= k).
Proof.
  intros Hm Hk w e w' Hw. unfold mbind, M_bind.
  destruct (m w) as [[a|e0] w1] eqn:E.
  - apply Hk. by eapply preserves_run.
  - intros [= <- <-]. by eapply preserves_run.
Qed.

Lemma callbacks_pop_raise strategy w e w' :
  callbacks_pop strategy w = (Raise e, w') → w' = w.
Proof.
  unfold callbacks_pop, deref, mbind, M_bind.
  destruct (strategies w !! strategy) as [s|] eqn:Hs; [|congruence].
  destruct (callbacks s) as [[|c cs]|]; unfold raise; try congruence.
  unfold set_callbacks, deref, mbind, M_bind. by rewrite Hs.
Qed.

Lemma preserves_unpack_results I : preserves I unpack_results.
Proof.
  apply preserves_gets_bind. intros w Hw.
  destruct (results (self w)); [by apply preserves_deref|done].
Qed.

Lemma preserves_next_axes I : ignores_axes I → preserves I next_axes.
Proof.
  intros Ha w Hw. unfold next_axes.
  destruct (axes (self w)) as [[|ax rest]|]; [done| |done]. apply Ha, Hw.
Qed.

(** [pop] is the last statement of [after_strategy]: when the call raises,
    no strategy has lost an observer. *)
Lemma after_strategy_raise_strategies model metric eval_set strategy w e w' :
  after_strategy model metric eval_set strategy w = (Raise e, w') →
  strategies w' = strategies w.
Proof.
  rewrite after_strategy_unfold.
  set (I := fun w0 => strategies w0 = strategies w).
  assert (∀ ax, ignores_panel ax I) as Hp by (by intros ? ? ?).
  refine (keeps_on_raise_bind I _ _ _ _ w e w' eq_refl).
  { apply preserves_next_axes. by intros ? ? ?. }
  intros ax. unfold after_panel.
  apply keeps_on_raise_bind; [apply preserves_unpack_results|]. intros kwargs.
  apply keeps_on_raise_bind; [by apply preserves_call_plot_lines|]. intros _.
  apply keeps_on_raise_bind; [apply preserves_gets|]. intros leg.
  apply keeps_on_raise_bind.
  { destruct leg; [apply preserves_ret|].
    apply preserves_bind.
    - unfold ax_get_legend_handles_labels.
      apply preserves_bind; [apply preserves_deref|intros; apply preserves_ret].
    - intros l. apply preserves_modify. by intros ? ?. }
  intros _. apply keeps_on_raise_bind; [apply preserves_deref|]. intros s.
  apply keeps_on_raise_bind; [by apply preserves_update_axes|]. intros _.
  intros w0 e0 w0' Hw0 E. apply callbacks_pop_raise in E. by subst.
Qed.

Lemma removelast_snoc {A} (l : list A) x : removelast (l ++ [x]) = l.
Proof. by rewrite removelast_last. Qed.

(** A pair without an iteration in between: the new accumulator is still
    empty, [after_strategy] raises the usage error of [plot_lines] before
    it reaches [pop], and the strategy, which had no observer, keeps the
    aggregator. *)
Lemma pair_without_iteration_stays_attached :
  let w := exec [example_task] example_world in
  let w1 := (before_strategy "m1" "mse" "train" 0 w).2 in
  let w2 := (after_strategy "m1" "mse" "train" 0 w1).2 in
  (callbacks <$> strategies w !! 0) = Some None
  ∧ (before_strategy "m1" "mse" "train" 0 w).1 = Ok tt
  ∧ (after_strategy "m1" "mse" "train" 0 w1).1
    = Raise (ValueError "Not enough lines to construct line plot!")
  ∧ (callbacks <$> strategies w2 !! 0)
    = Some (Some [MkInstance PatienceStrategyCallback 0]).
Proof. by vm_compute. Qed.

(** C6 (amended): [before_strategy] appends exactly one new aggregator,
    bound to a new empty accumulator, to the strategy's observers (starting
    a list when there is none or it is empty).  With the observer list not
    changed in between, an [after_strategy] that returns normally removes
    exactly that last one, so that the observers are those of before the
    pair, and an [after_strategy] that raises removes nothing: the
    aggregator stays attached. *)
Theorem attach_detach_restores (model metric eval_set : string) (strategy : nat)
    (w : World) (s : Strategy) :
  strategies w !! strategy = Some s →
  ∃ w1 new_callback,
    before_strategy model metric eval_set strategy w = (Ok tt, w1)
    ∧ new_callback = MkInstance (strategy_callback (self w)) (length (dicts w))
    ∧ dicts w !! inst_results new_callback = None
    ∧ dicts w1 !! inst_results new_callback = Some []
    ∧ results (self w1) = Some (inst_results new_callback)
    ∧ (callbacks <$> strategies w1 !! strategy)
      = Some (Some (default [] (callbacks s) ++ [new_callback]))
    ∧ ∀ model' metric' eval_set' w2 s2,
        strategies w2 !! strategy = Some s2 →
        callbacks s2 = Some (default [] (callbacks s) ++ [new_callback]) →
        (∀ w3,
           after_strategy model' metric' eval_set' strategy w2 = (Ok tt, w3) →
           (callbacks <$> strategies w3 !! strategy)
           = Some (Some (default [] (callbacks s)))
           ∧ length (default [] (callbacks s)) + 1
             = length (default [] (callbacks s) ++ [new_callback]))
        ∧ (∀ e w3,
             after_strategy model' metric' eval_set' strategy w2 = (Raise e, w3) →
             (callbacks <$> strategies w3 !! strategy)
             = Some (Some (default [] (callbacks s) ++ [new_callback]))).
Proof.
  intros Hs. eexists _, _. split; [by apply before_strategy_ok|].
  assert (strategy < length (strategies w)) as Hlt by (by eapply lookup_lt_Some).
  split; [done|]. split; [by apply lookup_ge_None_2|].
  split; [cbn; by rewrite lookup_app_r, Nat.sub_diag by done|].
  split; [done|]. split; [cbn; by rewrite list_lookup_insert_eq|].
  intros model' metric' eval_set' w2 s2 Hs2 Hcb2. split.
  - intros w3 H.
    apply (after_strategy_inv _ _ _ _ _ _ s2) in H as [_ ->]; [|done].
    split; [|rewrite length_app; cbn; lia].
    rewrite list_lookup_insert_eq by (by eapply lookup_lt_Some).
    cbn. rewrite Hcb2. cbn. by rewrite removelast_snoc.
  - intros e w3 H. apply after_strategy_raise_strategies in H.
    by rewrite H, Hs2, <- Hcb2.
Qed.

(** One complete run on the example task: the strategy starts without
    observers and ends with an empty observer list. *)
Lemma attach_detach_restores_witness :
  (callbacks <$> strategies example_attached !! 0)
  = Some (Some [MkInstance PatienceStrategyCallback 0])
  ∧ (after_strategy "m1" "mse" "train" 0 example_iterated).1 = Ok tt
  ∧ (callbacks
       <$> strategies (after_strategy "m1" "mse" "train" 0 example_iterated).2
           !! 0)
    = Some (Some []).
Proof.
  split; [by vm_compute|]. split; [by vm_compute|].
  destruct (attach_detach_restores "m1" "mse" "train" 0
              (exec [example_task] example_world) (MkStrategy "S" None))
    as (w1 & c & _ & -> & _ & _ & _ & _ & Hpair); [by vm_compute|].
  apply (Hpair "m1" "mse" "train" example_iterated
           (MkStrategy "S" (Some [MkInstance PatienceStrategyCallback 0]))).
  - by vm_compute.
  - by vm_compute.
  - by vm_compute.
Defined.

(** ** The panel sequence within a task *)

(** The generator [g] loses its first panel at every [after_strategy] and
    is otherwise left alone; a panel that is not taken is not drawn on. *)
Lemma call_within_task {X Y C} (h : hook X Y C) w g i v :
  is_before_task h = false →
  axes (self w) = Some g →
  axes (self (call h w).2)
  = Some (if is_after_strategy h then drop 1 g else g)
  ∧ (i ∉ (if is_after_strategy h then take 1 g else []) →
     axes_heap w !! i = v → axes_heap (call h w).2 !! i = v).
Proof.
  intros Hh Hg.
  set (IA := fun g' w' => axes (self w') = Some g').
  set (IB := fun w' => axes_heap w' !! i = axes_heap w !! i).
  enough (IA (if is_after_strategy h then drop 1 g else g) (call h w).2
          ∧ (i ∉ (if is_after_strategy h then take 1 g else []) →
             IB (call h w).2)) as [HA HB].
  { split; [done|]. intros Hi <-. by apply HB. }
  destruct h as [cd st f|model metric eval_set strategy|strategy a
                |model metric eval_set strategy|]; [done| | | |]; cbn.
  - split; [|intros _];
      apply preserves_before_strategy; by try intros ? ? ?.
  - split; [|intros _];
      (apply preserves_bind; [|by intros ? ? ?|done]);
      apply preserves_notify_before_iter; by try intros ? ? ?.
  - rewrite after_strategy_unfold. unfold mbind, M_bind, next_axes.
    rewrite Hg. destruct g as [|ax rest]; [done|]. cbn. split.
    + apply preserves_after_panel; [| |left|]; by try intros ? ? ?.
    + intros Hi. assert (i ≠ ax) as Hne by (intros ->; apply Hi; by left).
      apply preserves_after_panel; [| |left|]; try by intros ? ? ?.
      * intros a w' Hw'. unfold IB. cbn. by rewrite list_lookup_insert_ne.
      * reflexivity.
  - split; [|intros _]; apply preserves_after_task; by try intros ? ? ?.
Qed.

Lemma exec_within_task {X Y C} (hs : list (hook X Y C)) : ∀ w g,
  within_task hs → axes (self w) = Some g →
  axes (self (exec hs w)) = Some (drop (after_strategy_calls hs) g)
  ∧ ∀ i v, i ∉ take (after_strategy_calls hs) g →
           axes_heap w !! i = v → axes_heap (exec hs w) !! i = v.
Proof.
  induction hs as [|h hs IH]; intros w g Hhs Hg.
  - cbn. by rewrite drop_0.
  - apply Forall_cons in Hhs as [Hh Hhs].
    change (exec (h :: hs) w) with (exec hs (call h w).2).
    unfold after_strategy_calls. cbn.
    destruct (is_after_strategy h) eqn:Hk; cbn.
    + pose proof (call_within_task h w g) as Hc. rewrite Hk in Hc.
      destruct (IH (call h w).2 (drop 1 g) Hhs) as [IHa IHb].
      { by apply (Hc 0 None). }
      split.
      * rewrite IHa, drop_drop. reflexivity.
      * intros i v Hi Hv. apply IHb.
        -- intros Hin. apply Hi. destruct g as [|ax rest].
           ++ cbn in Hin. rewrite take_nil in Hin. by apply elem_of_nil in Hin.
           ++ cbn in Hin. cbn. by right.
        -- apply (Hc i v); [done..| |done]. intros Hin. apply Hi.
           destruct g as [|ax rest]; [done|]. cbn in Hin.
           apply list_elem_of_singleton in Hin as ->. by left.
    + pose proof (call_within_task h w g) as Hc. rewrite Hk in Hc.
      destruct (IH (call h w).2 g Hhs) as [IHa IHb].
      { by apply (Hc 0 None). }
      split; [done|]. intros i v Hi Hv. apply IHb; [done|].
      apply (Hc i v); [done..| |done]. apply not_elem_of_nil.
Qed.

(** For the sizing example [num_axes] is 8, yet the panel sequence holds 9
    panels and a ninth [after_strategy] returns normally. *)
Lemma ninth_after_strategy_returns :
  before_task_layout example_curve_data example_strategies example_filters
  = Ok (MkLayout 4 2 8 3 3)
  ∧ num_axes (MkLayout 4 2 8 3 3) = 8
  ∧ (length <$> axes (self (exec [example_task] example_world))) = Some 9
  ∧ after_strategy_calls (mjoin (replicate 8 example_run)) = 8
  ∧ (after_strategy "m1" "mse" "train" 0
       (exec (example_task :: mjoin (replicate 8 example_run)
              ++ [BeforeStrategy "m1" "mse" "train" 0;
                  BeforeIter 0 (IterArgs 8 (S754_zero false) 0 5)])
             example_world)).1
    = Ok tt.
Proof. by vm_compute. Qed.

(** C1 (amended): the panel sequence made by [before_task] holds exactly
    [rows × cols] new blank panels, at least [num_axes]; within the task,
    after n [after_strategy] calls the next one takes the n-th panel, still
    blank, as long as n < rows × cols, and from then on every
    [after_strategy] raises [StopIteration] and changes nothing. *)
Theorem panel_sequence_exhaustion {X Y C : Type}
    (curve_data : dict (list string * list string * X))
    (strategies : dict (Y * list C)) (filters : gmap string filter_value)
    (w w1 : World) (hs : list (hook X Y C)) :
  before_task curve_data strategies filters w = (Ok tt, w1) →
  within_task hs →
  ∃ l,
    before_task_layout curve_data strategies filters = Ok l
    ∧ num_axes l ≤ rows l * cols l
    ∧ axes (self w1) = Some (seq (length (axes_heap w)) (rows l * cols l))
    ∧ (after_strategy_calls hs < rows l * cols l →
       ∃ rest,
         next_axes (exec hs w1)
         = (Ok (length (axes_heap w) + after_strategy_calls hs),
            with_self (set_axes (Some rest)) (exec hs w1))
         ∧ length rest = rows l * cols l - S (after_strategy_calls hs)
         ∧ axes_heap w !! (length (axes_heap w) + after_strategy_calls hs) = None
         ∧ axes_heap (exec hs w1)
             !! (length (axes_heap w) + after_strategy_calls hs)
           = Some blank_axes)
    ∧ (rows l * cols l ≤ after_strategy_calls hs →
       ∀ model metric eval_set strategy,
         after_strategy model metric eval_set strategy (exec hs w1)
         = (Raise StopIteration, exec hs w1)).
Proof.
  intros Hb Hhs. apply before_task_started in Hb as (l & Hl & -> & Hn).
  exists l. split; [done|].
  pose proof (layout_positive _ _ _ _ Hl) as (_ & _ & _ & _ & _ & Hc & [Hr _] & _).
  split; [done|]. split; [done|].
  set (base := length (axes_heap w)). set (n := after_strategy_calls hs).
  set (N := rows l * cols l).
  destruct (exec_within_task hs (started l w) (seq base N) Hhs eq_refl)
    as [Hax Hheap].
  fold n in Hax, Hheap. rewrite drop_seq in Hax. split.
  - intros Hlt. destruct (N - n) as [|k] eqn:Hk; [lia|].
    exists (seq (S (base + n)) k). unfold next_axes. rewrite Hax. cbn.
    split; [done|]. split; [rewrite length_seq; lia|].
    split; [apply lookup_ge_None_2; unfold base; lia|].
    apply Hheap.
    + rewrite take_seq, elem_of_seq. lia.
    + cbn. rewrite lookup_app_r by (unfold base; lia).
      apply lookup_replicate_2. unfold base, N. lia.
  - intros Hge model metric eval_set strategy.
    rewrite after_strategy_unfold. unfold mbind, M_bind, next_axes.
    rewrite Hax. by replace (N - n) with 0 by lia.
Qed.

Lemma panel_sequence_exhaustion_witness :
  ∃ l,
    before_task_layout example_curve_data example_strategies example_filters
    = Ok l
    ∧ rows l * cols l = 9
    ∧ after_strategy "m1" "mse" "train" 0
        (exec (mjoin (replicate 9 example_run))
              (exec [example_task] example_world))
      = (Raise StopIteration,
         exec (mjoin (replicate 9 example_run))
              (exec [example_task] example_world)).
Proof.
  destruct (panel_sequence_exhaustion
              example_curve_data example_strategies example_filters
              example_world (exec [example_task] example_world)
              (mjoin (replicate 9 example_run)))
    as (l & Hl & _ & _ & _ & Hstop).
  - by vm_compute.
  - unfold within_task. by repeat constructor.
  - exists l. split; [done|].
    assert (l = MkLayout 4 2 8 3 3) as -> by (vm_compute in Hl; congruence).
    split; [done|]. apply Hstop. by vm_compute.
Defined.

(** ** The legend cache *)

(** A captured legend survives every lifecycle call. *)
Lemma call_keeps_legend {X Y C} (h : hook X Y C) L :
  preserves (fun w => legend (self w) = Some L) (call h).
Proof.
  destruct h as [cd st f|model metric eval_set strategy|strategy a
                |model metric eval_set strategy|]; cbn.
  - apply preserves_before_task; by intros ? ? ?.
  - apply preserves_before_strategy; by intros ? ? ?.
  - apply preserves_bind; [|by intros ? ? ?].
    apply preserves_notify_before_iter. by intros ? ? ?.
  - apply preserves_after_strategy; try by intros ? ? ?.
    right. intros w ->. by eexists.
  - apply preserves_after_task; by intros ? ? ?.
Qed.

Lemma exec_keeps_legend {X Y C} (hs : list (hook X Y C)) L : ∀ w,
  legend (self w) = Some L → legend (self (exec hs w)) = Some L.
Proof.
  induction hs as [|h hs IH]; intros w Hw; [done|].
  change (exec (h :: hs) w) with (exec hs (call h w).2).
  by apply IH, (call_keeps_legend h L).
Qed.

(** The second [before_task] leaves [legend] and [results] as the first
    task left them, and after the first completed panel of the second task
    (panel 9) the cached legend is still that of the first task's first
    panel (panel 0), not that of panel 9. *)
Lemma second_task_keeps_first_legend :
  let w1 := exec (example_task :: example_run ++ [AfterTask]) example_world in
  let w2 := exec [example_task] w1 in
  let w3 := exec example_two_tasks example_world in
  legend (self w1) ≠ None
  ∧ legend (self w2) = legend (self w1)
  ∧ results (self w2) = results (self w1)
  ∧ axes (self w2) = Some (seq 9 9)
  ∧ axes (self w3) = Some (seq 10 8)
  ∧ Some (legend (self w3)) = (Some ∘ legend_handles_labels) <$> axes_heap w3 !! 0
  ∧ Some (legend (self w3)) ≠ (Some ∘ legend_handles_labels) <$> axes_heap w3 !! 9.
Proof. by vm_compute. Qed.

(** C3 (amended): [before_task] reassigns [figure] and [axes] and leaves
    [legend] and [results] alone; [before_strategy] reassigns [results] to
    a new accumulator and leaves [legend] alone; every [after_strategy]
    that returns normally while no legend is captured has set it to the
    legend of the panel it has just drawn, and it does return, having drawn
    one line per series other than "iter", when the accumulator holds
    "iter" and at least one more series, all of one non-zero length; and a
    captured legend is left unchanged by every later call, whatever the
    series labels. *)
Theorem legend_first_capture_wins :
  (∀ (X Y C : Type) (curve_data : dict (list string * list string * X))
     (strategies : dict (Y * list C)) (filters : gmap string filter_value) w w',
     before_task curve_data strategies filters w = (Ok tt, w') →
     (∃ fig, figure (self w') = Some fig
             ∧ axes (self w') = Some (fig_axes fig)
             ∧ fig_axes fig
               = seq (length (axes_heap w)) (fig_rows fig * fig_cols fig))
     ∧ legend (self w') = legend (self w)
     ∧ results (self w') = results (self w))
  ∧ (∀ model metric eval_set strategy w,
       results (self (before_strategy model metric eval_set strategy w).2)
       = Some (length (dicts w))
       ∧ dicts (before_strategy model metric eval_set strategy w).2
           !! length (dicts w) = Some []
       ∧ legend (self (before_strategy model metric eval_set strategy w).2)
         = legend (self w))
  ∧ (∀ model metric eval_set strategy w w',
       legend (self w) = None →
       after_strategy model metric eval_set strategy w = (Ok tt, w') →
       ∃ ax rest a',
         axes (self w) = Some (ax :: rest)
         ∧ axes_heap w' !! ax = Some a'
         ∧ legend (self w') = Some (legend_handles_labels a'))
  ∧ (∀ model metric eval_set strategy w ax rest r kwargs x a s c cs,
       legend (self w) = None →
       axes (self w) = Some (ax :: rest) →
       results (self w) = Some r → dicts w !! r = Some kwargs →
       clashes kwargs = false →
       2 ≤ length kwargs → get "iter" kwargs = Some x →
       x ≠ [] → same_length (length x) kwargs →
       axes_heap w !! ax = Some a →
       strategies w !! strategy = Some s → callbacks s = Some (c :: cs) →
       ∃ w' a',
         after_strategy model metric eval_set strategy w = (Ok tt, w')
         ∧ axes_heap w' !! ax = Some a'
         ∧ ax_lines a' = ax_lines a ++ lines_of x (remove "iter" kwargs)
         ∧ legend (self w') = Some (legend_handles_labels a'))
  ∧ (∀ (X Y C : Type) (hs : list (hook X Y C)) w L,
       legend (self w) = Some L → legend (self (exec hs w)) = Some L).
Proof.
  split; [|split; [|split; [|split]]].
  - intros X Y C curve_data strategies filters w w' H.
    apply before_task_started in H as (l & _ & -> & _).
    split; [|done]. by eexists.
  - intros model metric eval_set strategy w.
    set (I := fun w' => results (self w') = Some (length (dicts w))
                        ∧ dicts w' !! length (dicts w) = Some []
                        ∧ legend (self w') = legend (self w)).
    enough (I (before_strategy model metric eval_set strategy w).2)
      as (? & ? & ?) by done.
    unfold before_strategy.
    rewrite (bind_ok new_results _ w (length (dicts w)) _ eq_refl).
    refine ((_ : preserves I _) _ _).
    + apply preserves_bind; [apply preserves_gets|]. intros cls.
      apply preserves_bind; [apply preserves_deref|]. intros s.
      destruct (callbacks s) as [[|c cs]|];
        apply preserves_set_callbacks; by intros ? ? ?.
    + repeat split. cbn. by rewrite lookup_app_r, Nat.sub_diag.
  - intros model metric eval_set strategy w w' HL H.
    destruct (after_strategy_returned _ _ _ _ _ _ H)
      as (ax & rest & r & kwargs & x & a & s & c & cs
          & Hax & Hr & Hd & Hcl & Hlen & Hx & Hsame & Ha & Hs & Hcb).
    rewrite (after_strategy_ok _ _ _ _ _ ax rest r kwargs x a s c cs) in H
      by done.
    injection H as <-. eexists ax, rest, _. split; [done|]. cbn.
    split; [apply list_lookup_insert_eq; by eapply lookup_lt_Some|].
    by rewrite HL.
  - intros model metric eval_set strategy w ax rest r kwargs x a s c cs
      HL Hax Hr Hd Hcl Hlen Hx Hne Hsame Ha Hs Hcb.
    eexists _, _. split; [by eapply after_strategy_ok|]. cbn.
    split; [apply list_lookup_insert_eq; by eapply lookup_lt_Some|].
    split; [by destruct x|]. by rewrite HL.
  - intros X Y C hs w L. apply exec_keeps_legend.
Qed.

Lemma legend_first_capture_wins_witness :
  ∃ L,
    legend (self (exec (example_task :: example_run) example_world)) = Some L
    ∧ legend (self (exec ([AfterTask; example_task] ++ example_second_run)
                         (exec (example_task :: example_run) example_world)))
      = Some L.
Proof.
  eexists. split; [by vm_compute|].
  apply (proj2 (proj2 (proj2 (proj2 legend_first_capture_wins)))).
  by vm_compute.
Defined.

(** ** Saving the figure *)

Lemma figure_update_ok f fig w :
  figure (self w) = Some fig →
  figure_update f w = (Ok tt, with_self (set_figure (Some (f fig))) w).
Proof. intros H. unfold figure_update, gets, mbind, M_bind. by rewrite H. Qed.

(** [after_task], statement by statement. *)
Lemma after_task_unfold w :
  after_task w
  = match figure (self w) with
    | None => (Raise AttributeError, w)
    | Some fig =>
        let cls := strategy_callback (self w) in
        match legend (self w) with
        | None =>
            (Raise TypeError, with_self (set_figure (Some (entitled cls fig))) w)
        | Some L =>
            let w1 := with_self (set_figure (Some (decorated cls L fig))) w in
            match os_path_join (path (self w)) (file_name cls) with
            | Raise e => (Raise e, w1)
            | Ok fname =>
                if dir_exists (os_path_dirname fname) w
                then (Ok tt, saved_as fname (decorated cls L fig) w1)
                else (Raise FileNotFoundError, w1)
            end
        end
    end.
Proof.
  destruct w as [[cls p fig ax leg res] ds hp ss sv dirs].
  cbn [self figure legend path strategy_callback].
  destruct fig as [fig|]; [|reflexivity].
  destruct leg as [L|]; [|reflexivity].
  destruct p as [p|]; [|reflexivity].
  unfold after_task, figure_update, figure_savefig, gets, modify, lift, raise,
    mbind, M_bind.
  cbn [self figure legend path strategy_callback with_self set_figure].
  cbv zeta.
  destruct (os_path_join (Some p) (file_name cls)) as [fname|e]; [|reflexivity].
  unfold dir_exists. cbn [directories with_self].
  by destruct (all_sep (os_path_dirname fname)
               || bool_decide (os_path_dirname fname ∈ dirs)).
Qed.




(** A normal return of [after_task] has found a figure, a legend, a path
    and the directory of the destination, and has saved there. *)
Lemma after_task_returned w w' :
  after_task w = (Ok tt, w') →
  ∃ fig L p fname,
    figure (self w) = Some fig ∧ legend (self w) = Some L
    ∧ path (self w) = Some p
    ∧ os_path_join (Some p) (file_name (strategy_callback (self w))) = Ok fname
    ∧ dir_exists (os_path_dirname fname) w = true
    ∧ w' = saved_as fname (decorated (strategy_callback (self w)) L fig)
             (with_self
                (set_figure
                   (Some (decorated (strategy_callback (self w)) L fig))) w).
Proof.
  rewrite after_task_unfold.
  destruct (figure (self w)) as [fig|]; [|done].
  destruct (legend (self w)) as [L|]; [|done]. cbv zeta.
  destruct (path (self w)) as [p|]; [|done].
  destruct (os_path_join (Some p) _) as [fname|e] eqn:Hj; [|done].
  destruct (dir_exists _ w) eqn:Hd; [|done].
  intros [= <-]. by exists fig, L, p, fname.
Qed.





(** * Further properties *)

(** ** Dictionaries *)

Lemma get_set {V} (k k' : string) (v : V) (d : dict V) :
  get k' (set k v d) = if String.eqb k' k then Some v else get k' d.
Proof.
  induction d as [|[k0 v0] d IH]; cbn; [done|].
  destruct (String.eqb_spec k k0) as [->|Hne]; cbn.
  - by destruct (String.eqb_spec k' k0).
  - rewrite IH. destruct (String.eqb_spec k' k0) as [->|]; [|done].
    by destruct (String.eqb_spec k0 k) as [->|].
Qed.

Lemma get_ensure_series (k k' : string) (d : results_dict) :
  get k' (ensure_series k d)
  = if String.eqb k' k then Some (series k d) else get k' d.
Proof.
  unfold ensure_series, contains, series.
  destruct (get k d) as [l|] eqn:Hk.
  - destruct (String.eqb_spec k' k) as [->|]; [|done]. by rewrite Hk.
  - rewrite get_set. destruct (String.eqb_spec k' k) as [->|]; by rewrite ?Hk.
Qed.

Lemma append_series_ok (k : string) (v : scalar) (d : results_dict) l :
  get k d = Some l → append_series k v d = Ok (set k (l ++ [v]) d).
Proof. intros H. unfold append_series, getitem. by rewrite H. Qed.

(** ** The aggregators on an accumulator that is not empty *)

Ltac eqb_false k :=
  repeat match goal with
    | |- context [String.eqb k ?s] =>
        destruct (String.eqb_spec k s); [subst; tauto|]
    end.

(** X1: on any accumulator, whatever it already holds, [before_iter]
    returns [False] without raising; it adds the call's value at the end of
    every tracked series (a missing one is created first) and leaves every
    other key as it was. *)
Theorem before_iter_any_accumulator (c : callback_class) (a : iter_args)
    (d : results_dict) :
  ∃ d',
    before_iter c a d = Ok (d', false)
    ∧ (∀ k, k ∈ tracked c → get k d' = Some (series k d ++ [contribution k a]))
    ∧ (∀ k, k ∉ tracked c → get k d' = get k d).
Proof.
  destruct c; cbn [before_iter];
    unfold patience_before_iter, learning_curve_before_iter.
  - erewrite append_series_ok by (rewrite !get_ensure_series; reflexivity).
    cbn [mbind outcome_bind].
    erewrite append_series_ok
      by (rewrite get_set, !get_ensure_series; reflexivity).
    cbn [mbind outcome_bind].
    erewrite append_series_ok
      by (rewrite !get_set, !get_ensure_series; reflexivity).
    cbn [mbind outcome_bind]. eexists. split; [reflexivity|]. split.
    + intros k Hk. cbn in Hk. set_unfold. rewrite !get_set.
      destruct Hk as [->|[->|[->|[]]]]; cbn; try reflexivity;
        unfold series; by rewrite ?get_ensure_series.
    + intros k Hk. cbn in Hk. set_unfold.
      rewrite !get_set, !get_ensure_series. by eqb_false k.
  - erewrite append_series_ok by (rewrite !get_ensure_series; reflexivity).
    cbn [mbind outcome_bind].
    erewrite append_series_ok
      by (rewrite get_set, !get_ensure_series; reflexivity).
    cbn [mbind outcome_bind]. eexists. split; [reflexivity|]. split.
    + intros k Hk. cbn in Hk. set_unfold. rewrite !get_set.
      destruct Hk as [->|[->|[]]]; cbn; try reflexivity;
        unfold series; by rewrite ?get_ensure_series.
    + intros k Hk. cbn in Hk. set_unfold.
      rewrite !get_set, !get_ensure_series. by eqb_false k.
Qed.

(** ** What [plot_lines] leaves on the panel *)

(** X2: a [plot_lines] call that returns normally has labelled both axes
    of the panel with the name of the X series, hidden the panel's own
    legend and switched the grid on; it has kept the panel's title and the
    lines drawn before, and touched no other panel and no other part of
    the store. *)
Theorem plot_lines_decorates (x_label : string) (ax : nat)
    (kwargs : results_dict) (w w' : World) :
  call_plot_lines x_label ax kwargs w = (Ok tt, w') →
  ∃ a a',
    axes_heap w !! ax = Some a
    ∧ axes_heap w' !! ax = Some a'
    ∧ ax_xlabel a' = x_label ∧ ax_ylabel a' = x_label
    ∧ ax_legend_visible a' = Some false ∧ ax_grid a' = true
    ∧ ax_title a' = ax_title a
    ∧ ax_lines a `prefix_of` ax_lines a'
    ∧ (∀ i, i ≠ ax → axes_heap w' !! i = axes_heap w !! i)
    ∧ self w' = self w ∧ dicts w' = dicts w
    ∧ strategies w' = strategies w ∧ saved w' = saved w.
Proof.
  intros H. apply call_plot_lines_inv in H as [_ H].
  apply plot_lines_inv in H as (_ & x & a & _ & _ & Ha & ->).
  eexists a, _. split; [done|].
  split; [by eapply put_axes_lookup|]. cbn.
  repeat (split; [done|]). split; [by eexists|]. split; [|done].
  intros i Hi. by rewrite list_lookup_insert_ne.
Qed.

Lemma plot_lines_decorates_witness :
  ∃ a',
    axes_heap
      (call_plot_lines "iter" 0 [("iter", [PyInt 0]); ("error", [PyInt 7])]
         (MkWorld (init LearningCurveStrategyCallback None) []
                  [MkAxes [] None "" "" false "kept"] [] [] [])).2 !! 0
    = Some a'
    ∧ ax_xlabel a' = "iter" ∧ ax_ylabel a' = "iter" ∧ ax_title a' = "kept".
Proof.
  destruct (plot_lines_decorates "iter" 0 [("iter", [PyInt 0]); ("error", [PyInt 7])]
              (MkWorld (init LearningCurveStrategyCallback None) []
                       [MkAxes [] None "" "" false "kept"] [] [] [])
              (call_plot_lines "iter" 0 [("iter", [PyInt 0]); ("error", [PyInt 7])]
                 (MkWorld (init LearningCurveStrategyCallback None) []
                          [MkAxes [] None "" "" false "kept"] [] [] [])).2)
    as (a & a' & Ha & Ha' & Hx & Hy & _ & _ & Ht & _); [by vm_compute|].
  exists a'. split; [done|]. split; [done|]. split; [done|].
  rewrite Ht. by injection Ha as <-.
Defined.

(** ** The shape of the grid *)

(** X3: for a [num_axes] below 2^52 the grid [before_task] computes is
    square or one row short of square, and fewer than [cols] of its panels
    (less than one row) are not needed. *)
Theorem grid_near_square {X Y C : Type}
    (curve_data : dict (list string * list string * X))
    (strategies : dict (Y * list C)) (filters : gmap string filter_value)
    (l : layout) :
  before_task_layout curve_data strategies filters = Ok l →
  binary64_exact (num_axes l) →
  rows l ≤ cols l ∧ cols l ≤ rows l + 1
  ∧ num_axes l ≤ rows l * cols l ∧ rows l * cols l < num_axes l + cols l.
Proof.
  intros Hl _.
  apply layout_positive in Hl
    as (_ & _ & _ & Hn & [Hc Hcmin] & Hc0 & [Hr Hrmin] & Hr0).
  assert (rows l ≤ cols l) as Hrc by (by apply Hrmin).
  split; [done|]. split; [|split; [done|]].
  - destruct (Nat.le_gt_cases (cols l) (rows l + 1)) as [|Hgt]; [done|].
    exfalso. specialize (Hcmin (cols l - 1)).
    assert (num_axes l ≤ (cols l - 1) * (cols l - 1)) as Hle; [|apply Hcmin in Hle; lia].
    assert (rows l * cols l ≤ (cols l - 2) * cols l)
      by (apply Nat.mul_le_mono_r; lia).
    nia.
  - destruct (Nat.le_gt_cases (num_axes l + cols l) (rows l * cols l)) as [Hge|];
      [|done].
    exfalso. specialize (Hrmin (rows l - 1)).
    assert (num_axes l ≤ (rows l - 1) * cols l) as Hle; [|apply Hrmin in Hle; lia].
    nia.
Qed.

Lemma grid_near_square_witness :
  ∃ l,
    before_task_layout example_curve_data example_strategies example_filters
    = Ok l
    ∧ num_axes l = 8 ∧ rows l = 3 ∧ cols l = 3
    ∧ rows l ≤ cols l ∧ cols l ≤ rows l + 1
    ∧ num_axes l ≤ rows l * cols l ∧ rows l * cols l < num_axes l + cols l.
Proof.
  exists (MkLayout 4 2 8 3 3). split; [by vm_compute|].
  split; [done|]. split; [done|]. split; [done|].
  apply (grid_near_square example_curve_data example_strategies example_filters).
  - by vm_compute.
  - reflexivity.
Defined.

(** ** Filters only restrict *)

Lemma np_intersect1d_length ar1 ar2 :
  length (np_intersect1d ar1 ar2) ≤ length ar1.
Proof.
  unfold np_intersect1d. etrans; [apply length_filter|].
  unfold np_unique. rewrite merge_sort_Permutation.
  apply submseteq_length, NoDup_submseteq; [apply NoDup_remove_dups|].
  intros x. by rewrite elem_of_remove_dups.
Qed.

Lemma total_curves_loop_bound {X}
    (curve_data : dict (list string * list string * X)) filters : ∀ acc tc,
  total_curves_loop curve_data filters acc = Ok tc →
  acc ≤ tc ∧ tc ≤ acc + unfiltered_curves curve_data.
Proof.
  induction curve_data as [|[model [[es ms] x]] cd IH]; intros acc tc; cbn.
  - intros [= <-]. unfold unfiltered_curves. cbn. lia.
  - unfold unfiltered_curves in *. cbn.
    destruct (filter_getitem filters "models") as [fm|]; cbn; [|done].
    destruct (truthy fm && negb (bool_decide (model ∈ filter_items fm))).
    { intros H. apply IH in H. lia. }
    destruct (filter_getitem filters "metrics") as [fmet|]; cbn; [|done].
    destruct (filter_getitem filters "eval_sets") as [fev|]; cbn; [|done].
    intros H. apply IH in H.
    assert ((if truthy fmet then length (np_intersect1d ms (filter_items fmet))
             else length ms) ≤ length ms)
      by (destruct (truthy fmet); [apply np_intersect1d_length|done]).
    assert ((if truthy fev then length (np_intersect1d es (filter_items fev))
             else length es) ≤ length es)
      by (destruct (truthy fev); [apply np_intersect1d_length|done]).
    nia.
Qed.

(** X4: whatever the filters hold, the [total_curves] that [before_task]
    computes is at most the count without any filter, the sum over all
    models of (number of metrics) × (number of eval sets); so [num_axes] is
    at most that sum times [total_configs]. *)
Theorem filters_only_restrict {X Y C : Type}
    (curve_data : dict (list string * list string * X))
    (strategies : dict (Y * list C)) (filters : gmap string filter_value) :
  (∀ tc, total_curves curve_data filters = Ok tc →
         tc ≤ unfiltered_curves curve_data)
  ∧ (∀ l, before_task_layout curve_data strategies filters = Ok l →
          num_axes l ≤ unfiltered_curves curve_data * total_configs strategies).
Proof.
  assert (∀ tc, total_curves curve_data filters = Ok tc →
                tc ≤ unfiltered_curves curve_data) as Htc.
  { intros tc H. apply total_curves_loop_bound in H. lia. }
  split; [done|]. intros l Hl.
  apply layout_positive in Hl as (-> & -> & Hl & _).
  apply Nat.mul_le_mono_r. by apply Htc.
Qed.

Lemma filters_only_restrict_witness :
  2 ≤ unfiltered_curves example_curve_data.
Proof.
  apply (proj1 (filters_only_restrict example_curve_data example_strategies
                  (<["metrics" := FList ["mse"; "rmse"]]> example_filters))).
  by vm_compute.
Defined.

(** ** A failing [before_task] *)

Lemma total_curves_loop_raise {X}
    (curve_data : dict (list string * list string * X)) filters : ∀ acc e,
  total_curves_loop curve_data filters acc = Raise e →
  ∃ k, k ∈ filter_keys ∧ filters !! k = None ∧ e = KeyError k.
Proof.
  induction curve_data as [|[model [[es ms] x]] cd IH]; intros acc e; cbn;
    [done|].
  unfold filter_getitem.
  destruct (filters !! "models") as [fm|] eqn:Hm; cbn; last first.
  { intros [= <-]. exists "models". unfold filter_keys. set_solver. }
  destruct (truthy fm && negb (bool_decide (model ∈ filter_items fm)));
    [apply IH|].
  destruct (filters !! "metrics") as [fmet|] eqn:Hme; cbn; last first.
  { intros [= <-]. exists "metrics". unfold filter_keys. set_solver. }
  destruct (filters !! "eval_sets") as [fev|] eqn:Hev; cbn; last first.
  { intros [= <-]. exists "eval_sets". unfold filter_keys. set_solver. }
  apply IH.
Qed.

(** X5: [before_task] is all or nothing: when it raises, the store is
    exactly as before the call (the previous figure and panel sequence stay
    in place), and the exception is either [ZeroDivisionError] or the
    [KeyError] of one of the three filter keys, absent from [filters]. *)
Theorem before_task_all_or_nothing {X Y C : Type}
    (curve_data : dict (list string * list string * X))
    (strategies : dict (Y * list C)) (filters : gmap string filter_value)
    (w w' : World) (e : exn) :
  before_task curve_data strategies filters w = (Raise e, w') →
  w' = w
  ∧ (e = ZeroDivisionError
     ∨ ∃ k, k ∈ filter_keys ∧ filters !! k = None ∧ e = KeyError k).
Proof.
  rewrite before_task_unfold, before_task_layout_unfold.
  destruct (total_curves curve_data filters) as [tc|e'] eqn:Htc.
  - destruct (tc * total_configs strategies =? 0); [|done].
    intros [= <- <-]. by split; [|left].
  - intros [= <- <-]. split; [done|]. right.
    by eapply total_curves_loop_raise.
Qed.

Lemma before_task_all_or_nothing_witness :
  (before_task example_curve_data example_strategies
     (<["models" := FList []]> ∅) (exec [example_task] example_world)).2
  = exec [example_task] example_world.
Proof.
  destruct (before_task_all_or_nothing example_curve_data example_strategies
              (<["models" := FList []]> ∅) (exec [example_task] example_world)
              (before_task example_curve_data example_strategies
                 (<["models" := FList []]> ∅) (exec [example_task] example_world)).2
              (KeyError "metrics"))
    as [H _]; [by vm_compute|exact H].
Defined.

(** ** A failing [after_strategy] *)

(** X6: an [after_strategy] that raises, for whatever reason, has detached
    nothing: every strategy has the observers it had before the call (the
    aggregator attached by [before_strategy] stays on the strategy), and
    the accumulators and the saved figures are unchanged too. *)
Theorem failed_after_strategy_detaches_nothing (model metric eval_set : string)
    (strategy : nat) (w w' : World) (e : exn) :
  after_strategy model metric eval_set strategy w = (Raise e, w') →
  strategies w' = strategies w ∧ dicts w' = dicts w ∧ saved w' = saved w.
Proof.
  intros H. split; [by eapply after_strategy_raise_strategies|].
  set (I := fun w0 => dicts w0 = dicts w ∧ saved w0 = saved w).
  enough (I w') by done.
  revert H. apply preserves_run; [|done].
  apply preserves_after_strategy; try by intros ? ? ?. left. by intros ? ? ?.
Qed.

(** The store once [after_strategy] has taken its panel. *)
Lemma after_strategy_unplottable model metric eval_set strategy w ax rest r kwargs :
  axes (self w) = Some (ax :: rest) →
  results (self w) = Some r → dicts w !! r = Some kwargs →
  clashes kwargs = false → length kwargs < 2 →
  after_strategy model metric eval_set strategy w
  = (Raise (ValueError "Not enough lines to construct line plot!"),
     with_self (set_axes (Some rest)) w).
Proof.
  intros Hax Hr Hd Hcl Hlen. rewrite after_strategy_unfold.
  erewrite bind_ok by (unfold next_axes; by rewrite Hax).
  unfold after_panel.
  erewrite bind_ok by (by eapply unpack_results_ok).
  unfold call_plot_lines, plot_lines, mbind, M_bind. rewrite Hcl.
  by destruct (Nat.ltb_spec (length kwargs) 2); [|lia].
Qed.

Lemma failed_after_strategy_detaches_nothing_witness :
  strategies (after_strategy "m1" "mse" "train" 0 example_attached).2
  = strategies example_attached
  ∧ dicts (after_strategy "m1" "mse" "train" 0 example_attached).2
    = dicts example_attached
  ∧ saved (after_strategy "m1" "mse" "train" 0 example_attached).2
    = saved example_attached.
Proof.
  apply (failed_after_strategy_detaches_nothing "m1" "mse" "train" 0
           example_attached _
           (ValueError "Not enough lines to construct line plot!")).
  by vm_compute.
Defined.

(** ** A strategy run without iterations *)

(** X7: when [after_strategy] follows [before_strategy] without any
    [before_iter] in between, the new accumulator is empty, so
    [after_strategy] raises the "not enough lines" [ValueError]: by then it
    has taken a panel from the sequence, which stays blank, and the
    aggregator is still attached to the strategy. *)
Theorem run_without_iterations_fails (model metric eval_set : string)
    (strategy : nat) (w : World) (s : Strategy) (ax : nat) (rest : list nat) :
  strategies w !! strategy = Some s →
  axes (self w) = Some (ax :: rest) →
  ∃ w1 w2,
    before_strategy model metric eval_set strategy w = (Ok tt, w1)
    ∧ after_strategy model metric eval_set strategy w1
      = (Raise (ValueError "Not enough lines to construct line plot!"), w2)
    ∧ axes (self w2) = Some rest
    ∧ axes_heap w2 = axes_heap w
    ∧ legend (self w2) = legend (self w)
    ∧ (callbacks <$> strategies w2 !! strategy)
      = Some (Some (default [] (callbacks s)
                    ++ [MkInstance (strategy_callback (self w))
                                   (length (dicts w))])).
Proof.
  intros Hs Hax. eexists _, _. split; [by apply before_strategy_ok|].
  split.
  - eapply (after_strategy_unplottable _ _ _ _ _ ax rest (length (dicts w)) []);
      [by cbn|done| |done|cbn; lia].
    cbn. by rewrite lookup_app_r, Nat.sub_diag.
  - cbn. repeat (split; [done|]).
    rewrite list_lookup_insert_eq by (by eapply lookup_lt_Some). done.
Qed.

Lemma run_without_iterations_fails_witness :
  ∃ w1 w2,
    before_strategy "m1" "mse" "train" 0 (exec [example_task] example_world)
    = (Ok tt, w1)
    ∧ after_strategy "m1" "mse" "train" 0 w1
      = (Raise (ValueError "Not enough lines to construct line plot!"), w2)
    ∧ axes (self w2) = Some (seq 1 8).
Proof.
  destruct (run_without_iterations_fails "m1" "mse" "train" 0
              (exec [example_task] example_world) (MkStrategy "S" None)
              0 (seq 1 8))
    as (w1 & w2 & H1 & H2 & H3 & _); [by vm_compute..|].
  by exists w1, w2.
Defined.

(** ** From the iterations to the panel *)

Lemma instance_before_iter_accumulated cls r xs a w :
  dicts w !! r = Some (accumulated cls xs) →
  instance_before_iter a (MkInstance cls r) w
  = (Ok false,
     with_dicts (fun h => <[r := accumulated cls (xs ++ [a])]> h) w).
Proof.
  intros Hd. unfold instance_before_iter. cbn [inst_results inst_class].
  erewrite bind_ok by (by apply deref_ok).
  rewrite before_iter_accumulated. reflexivity.
Qed.

Lemma before_iter_on_accumulated cls r calls : ∀ xs w,
  dicts w !! r = Some (accumulated cls xs) →
  before_iter_on (MkInstance cls r) calls w
  = (Ok (replicate (length calls) false),
     with_dicts (fun h => <[r := accumulated cls (xs ++ calls)]> h) w).
Proof.
  induction calls as [|a calls IH]; intros xs w Hd; cbn.
  - rewrite app_nil_r. unfold with_dicts. rewrite list_insert_id by done.
    by destruct w.
  - erewrite bind_ok by (by apply instance_before_iter_accumulated).
    erewrite bind_ok; last first.
    { apply (IH (xs ++ [a])). cbn. apply list_lookup_insert_eq.
      by eapply lookup_lt_Some. }
    unfold with_dicts. cbn.
    by rewrite list_insert_insert_eq, <- app_assoc.
Qed.

(** The series of an aggregator have one value per call, and those that
    are drawn are all but "iter". *)
Lemma accumulated_plottable cls a calls :
  clashes (accumulated cls (a :: calls)) = false
  ∧ 2 ≤ length (accumulated cls (a :: calls))
  ∧ get "iter" (accumulated cls (a :: calls))
    = Some (contribution "iter" <$> a :: calls)
  ∧ same_length (length (contribution "iter" <$> a :: calls))
      (accumulated cls (a :: calls))
  ∧ lines_of (contribution "iter" <$> a :: calls)
      (remove "iter" (accumulated cls (a :: calls)))
    = (fun k => MkLine (contribution "iter" <$> a :: calls)
                       (contribution k <$> a :: calls) k)
        <$> tail (tracked cls).
Proof.
  destruct cls; cbn; (split; [done|]); (split; [lia|]); (split; [done|]);
    (split; [|done]);
    repeat constructor; cbn; by rewrite !length_fmap.
Qed.

(** A complete strategy run with at least one iteration. *)
Lemma strategy_run_ok (model metric eval_set : string)
    (strategy : nat) (w : World) (s : Strategy) (ax : nat) (rest : list nat)
    (a : Axes) (calls : list iter_args) :
  strategies w !! strategy = Some s →
  axes (self w) = Some (ax :: rest) →
  axes_heap w !! ax = Some a →
  calls ≠ [] →
  ∃ w1 w2 w3 a',
    before_strategy model metric eval_set strategy w = (Ok tt, w1)
    ∧ before_iter_on
        (MkInstance (strategy_callback (self w)) (length (dicts w))) calls w1
      = (Ok (replicate (length calls) false), w2)
    ∧ after_strategy model metric eval_set strategy w2 = (Ok tt, w3)
    ∧ axes_heap w3 !! ax = Some a'
    ∧ ax_lines a'
      = ax_lines a
        ++ ((fun k => MkLine (contribution "iter" <$> calls)
                             (contribution k <$> calls) k)
              <$> tail (tracked (strategy_callback (self w))))
    ∧ (callbacks <$> strategies w3 !! strategy)
      = Some (Some (default [] (callbacks s)))
    ∧ legend (self w3)
      = Some (default (legend_handles_labels a') (legend (self w)))
    ∧ dicts w3 !! length (dicts w)
      = Some (accumulated (strategy_callback (self w)) calls).
Proof.
  intros Hs Hax Ha Hcalls.
  destruct calls as [|c0 calls]; [done|].
  set (cls := strategy_callback (self w)). set (r := length (dicts w)).
  pose proof (accumulated_plottable cls c0 calls)
    as (Hcl & Hlen & Hit & Hsame & Hlines).
  assert (strategy < length (strategies w)) as Hlt by (by eapply lookup_lt_Some).
  assert (∃ c cs, default [] (callbacks s) ++ [MkInstance cls r] = c :: cs)
    as (c & cs & Hcons) by (destruct (default [] (callbacks s)); by eexists _, _).
  eexists _, _, _, _. split; [by apply before_strategy_ok|].
  split.
  { apply (before_iter_on_accumulated cls r (c0 :: calls) []). cbn.
    by rewrite lookup_app_r, Nat.sub_diag. }
  split.
  { eapply (after_strategy_ok _ _ _ _ _ ax rest r
              (accumulated cls (c0 :: calls)) _ a
              (attached cls r s) c cs); try done.
    - cbn. apply list_lookup_insert_eq. rewrite length_app. cbn. lia.
    - cbn. by apply list_lookup_insert_eq.
    - cbn. by rewrite Hcons. }
  cbn [axes_heap]. split; [apply list_lookup_insert_eq; by eapply lookup_lt_Some|].
  split.
  { cbn [ax_lines titled plotted]. by rewrite drawn_nonempty, Hlines. }
  split.
  { cbn [strategies with_dicts]. rewrite list_lookup_insert_eq; last first.
    { by rewrite length_insert. }
    cbn. by rewrite removelast_snoc. }
  split; [reflexivity|].
  cbn. apply list_lookup_insert_eq. rewrite length_app. cbn. lia.
Qed.

(** X8: the accumulator made by [before_strategy] is the one the attached
    aggregator fills and the one [after_strategy] plots: after
    [before_strategy], K ≥ 1 [before_iter] calls on the new aggregator (none
    of which votes to stop) and [after_strategy], the panel has gained one
    line per tracked series other than "iter", from a [lineplot] call that
    was handed the K values of the calls, in call order, as y and their K
    "iter" values as x, and the strategy has the observers it had
    before. *)
Theorem panel_shows_the_iterations (model metric eval_set : string)
    (strategy : nat) (w : World) (s : Strategy) (ax : nat) (rest : list nat)
    (a : Axes) (calls : list iter_args) :
  strategies w !! strategy = Some s →
  axes (self w) = Some (ax :: rest) →
  axes_heap w !! ax = Some a →
  calls ≠ [] →
  ∃ w1 w2 w3 a',
    before_strategy model metric eval_set strategy w = (Ok tt, w1)
    ∧ before_iter_on
        (MkInstance (strategy_callback (self w)) (length (dicts w))) calls w1
      = (Ok (replicate (length calls) false), w2)
    ∧ after_strategy model metric eval_set strategy w2 = (Ok tt, w3)
    ∧ axes_heap w3 !! ax = Some a'
    ∧ ax_lines a'
      = ax_lines a
        ++ ((fun k => MkLine (contribution "iter" <$> calls)
                             (contribution k <$> calls) k)
              <$> tail (tracked (strategy_callback (self w))))
    ∧ (callbacks <$> strategies w3 !! strategy)
      = Some (Some (default [] (callbacks s))).
Proof.
  intros Hs Hax Ha Hcalls.
  destruct (strategy_run_ok model metric eval_set strategy w s ax rest a calls)
    as (w1 & w2 & w3 & a' & H1 & H2 & H3 & H4 & H5 & H6 & _); [done..|].
  by exists w1, w2, w3, a'.
Qed.

Lemma panel_shows_the_iterations_witness :
  ∃ w3 a',
    after_strategy "m1" "mse" "train" 0 example_iterated = (Ok tt, w3)
    ∧ axes_heap w3 !! 0 = Some a'
    ∧ ax_lines a'
      = [MkLine [PyInt 0] [PyInt 0] "iter_wo_improvement";
         MkLine [PyInt 0] [PyInt 5] "patience"].
Proof.
  destruct (panel_shows_the_iterations "m1" "mse" "train" 0
              (exec [example_task] example_world) (MkStrategy "S" None)
              0 (seq 1 8) blank_axes [IterArgs 0 (S754_zero false) 0 5])
    as (w1 & w2 & w3 & a' & H1 & H2 & H3 & H4 & H5 & _);
    [by vm_compute..|].
  assert (w2 = example_iterated) as ->.
  { assert (w1 = example_attached) as -> by (unfold example_attached; by rewrite H1).
    apply (f_equal snd) in H2. cbn in H2. rewrite <- H2. by vm_compute. }
  exists w3, a'. split; [done|]. split; [done|]. rewrite H5. by vm_compute.
Defined.

(** ** Where figures are saved *)

(** The configuration of the callback ([path] and [strategy_callback]) is
    never assigned after construction. *)
Lemma call_keeps_configuration {X Y C} (h : hook X Y C) p cls :
  preserves (fun w => path (self w) = p ∧ strategy_callback (self w) = cls)
            (call h).
Proof.
  destruct h as [cd st f|model metric eval_set strategy|strategy a
                |model metric eval_set strategy|]; cbn.
  - apply preserves_before_task; by intros ? ? ?.
  - apply preserves_before_strategy; by intros ? ? ?.
  - apply preserves_bind; [|by intros ? ? ?].
    apply preserves_notify_before_iter. by intros ? ? ?.
  - apply preserves_after_strategy; try by intros ? ? ?. left. by intros ? ? ?.
  - apply preserves_after_task; by intros ? ? ?.
Qed.

(** Only [after_task] saves. *)
Lemma call_keeps_saved {X Y C} (h : hook X Y C) l :
  is_after_task h = false →
  preserves (fun w => saved w = l) (call h).
Proof.
  destruct h as [cd st f|model metric eval_set strategy|strategy a
                |model metric eval_set strategy|]; cbn; [| | | |done]; intros _.
  - apply preserves_before_task; by intros ? ? ?.
  - apply preserves_before_strategy; by intros ? ? ?.
  - apply preserves_bind; [|by intros ? ? ?].
    apply preserves_notify_before_iter. by intros ? ? ?.
  - apply preserves_after_strategy; try by intros ? ? ?. left. by intros ? ? ?.
Qed.

(** [after_task] saves at most once, under the joined name. *)
Lemma after_task_saved w :
  ∃ new,
    saved (after_task w).2 = saved w ++ new ∧ length new ≤ 1
    ∧ Forall (fun e =>
                os_path_join (path (self w))
                  (file_name (strategy_callback (self w))) = Ok e.1.1) new.
Proof.
  assert (∃ new : list (string * Figure * list Axes),
            saved w = saved w ++ new ∧ length new ≤ 1
            ∧ Forall (fun e =>
                        os_path_join (path (self w))
                          (file_name (strategy_callback (self w))) = Ok e.1.1) new)
    as Hnone.
  { exists []. rewrite app_nil_r. split; [done|]. split; [cbn; lia|constructor]. }
  rewrite after_task_unfold.
  destruct (figure (self w)) as [fig|]; [|done].
  destruct (legend (self w)) as [L|]; [|done]. cbv zeta.
  destruct (os_path_join _ _) as [fname|e] eqn:Hj; [|done].
  destruct (dir_exists _ w); [|done].
  eexists [_]. split; [reflexivity|]. split; [done|].
  constructor; [reflexivity|constructor].
Qed.

(** X9: over any sequence of lifecycle calls the saved figures only grow,
    by at most one per [after_task]; every new one is saved under the same
    destination, [os.path.join(path, file_name)] of the callback, which no
    call changes: the figure of a later task goes where the figure of an
    earlier task went. *)
Theorem saves_share_one_destination {X Y C : Type} (hs : list (hook X Y C))
    (w : World) :
  ∃ new,
    saved (exec hs w) = saved w ++ new
    ∧ length new ≤ length (List.filter is_after_task hs)
    ∧ Forall (fun e =>
                os_path_join (path (self w))
                  (file_name (strategy_callback (self w))) = Ok e.1.1) new
    ∧ path (self (exec hs w)) = path (self w)
    ∧ strategy_callback (self (exec hs w)) = strategy_callback (self w).
Proof.
  revert w. induction hs as [|h hs IH]; intros w.
  { exists []. rewrite app_nil_r.
    split; [done|]. split; [cbn; lia|]. split; [constructor|done]. }
  change (exec (h :: hs) w) with (exec hs (call h w).2).
  destruct (IH (call h w).2) as (new & Hs & Hlen & Hdest & Hp & Hc).
  destruct (call_keeps_configuration h (path (self w))
              (strategy_callback (self w)) w (conj eq_refl eq_refl))
    as [Hp' Hc'].
  rewrite Hp, Hc, Hs, Hp', Hc'. rewrite Hp', Hc' in Hdest. cbn [List.filter].
  destruct (is_after_task h) eqn:Hh.
  - destruct h; try done. cbn [call] in *.
    destruct (after_task_saved w) as (new0 & -> & Hlen0 & Hdest0).
    exists (new0 ++ new). rewrite app_assoc. split; [done|].
    split; [rewrite length_app; cbn; lia|].
    split; [by apply Forall_app|done].
  - exists new. rewrite (call_keeps_saved h (saved w) Hh w eq_refl).
    by repeat split.
Qed.

(** ** The accumulators *)

Lemma before_strategy_dicts model metric eval_set strategy w :
  dicts (before_strategy model metric eval_set strategy w).2 = dicts w ++ [[]].
Proof.
  unfold before_strategy.
  rewrite (bind_ok new_results _ w (length (dicts w)) _ eq_refl).
  lazymatch goal with
  | |- dicts (?m ?w0).2 = _ =>
      enough (preserves (fun w1 => dicts w1 = dicts w ++ [[]]) m) as Hp
        by (by apply Hp)
  end.
  apply preserves_bind; [apply preserves_gets|]. intros cls.
  apply preserves_bind; [apply preserves_deref|]. intros s.
  destruct (callbacks s) as [[|c cs]|];
    apply preserves_set_callbacks; by intros ? ? ?.
Qed.

(** X10: the four hooks of the orchestration callback never rewrite an
    accumulator ([plot_lines] removes the X series from its own copy of the
    keywords): over any sequence of [before_task], [before_strategy],
    [after_strategy] and [after_task] calls the accumulators that existed
    are unchanged, and each [before_strategy], whether it returns or
    raises, has added one empty accumulator. *)
Theorem hooks_only_add_accumulators {X Y C : Type} (hs : list (hook X Y C))
    (w : World) :
  Forall (fun h => is_before_iter h = false) hs →
  dicts (exec hs w)
  = dicts w ++ replicate (length (List.filter is_before_strategy hs)) [].
Proof.
  intros Hhs. revert w.
  induction Hhs as [|h hs Hh Hhs IH]; intros w; [by rewrite app_nil_r|].
  change (exec (h :: hs) w) with (exec hs (call h w).2). rewrite IH.
  destruct h as [cd st f|model metric eval_set strategy|strategy a
                |model metric eval_set strategy|]; cbn [List.filter is_before_strategy call];
    [| |done| |].
  - f_equal.
    refine ((_ : preserves (fun w0 => dicts w0 = dicts w) _) _ eq_refl).
    apply preserves_before_task; by intros ? ? ?.
  - rewrite before_strategy_dicts. cbn. by rewrite <- app_assoc.
  - f_equal.
    refine ((_ : preserves (fun w0 => dicts w0 = dicts w) _) _ eq_refl).
    apply preserves_after_strategy; try by intros ? ? ?. left. by intros ? ? ?.
  - f_equal.
    refine ((_ : preserves (fun w0 => dicts w0 = dicts w) _) _ eq_refl).
    apply preserves_after_task; by intros ? ? ?.
Qed.

Lemma hooks_only_add_accumulators_witness :
  dicts (exec [example_task; BeforeStrategy "m1" "mse" "train" 0;
               AfterStrategy "m1" "mse" "train" 0; AfterTask]
              example_world)
  = [[]].
Proof.
  apply (hooks_only_add_accumulators
           [example_task; BeforeStrategy "m1" "mse" "train" 0;
            AfterStrategy "m1" "mse" "train" 0; AfterTask] example_world).
  by repeat constructor.
Defined.

(** ** Panels across tasks *)

(** X11: the calls of a task draw only on panels of that task's figure:
    after a successful [before_task], whatever calls follow before the next
    [before_task], every panel that existed before the task started (the
    panels of earlier figures) is as it was. *)
Theorem earlier_panels_untouched {X Y C : Type}
    (curve_data : dict (list string * list string * X))
    (strategies : dict (Y * list C)) (filters : gmap string filter_value)
    (w w1 : World) (hs : list (hook X Y C)) (i : nat) :
  before_task curve_data strategies filters w = (Ok tt, w1) →
  within_task hs →
  i < length (axes_heap w) →
  axes_heap (exec hs w1) !! i = axes_heap w !! i.
Proof.
  intros Hb Hhs Hi. apply before_task_started in Hb as (l & _ & -> & _).
  destruct (exec_within_task hs (started l w)
              (seq (length (axes_heap w)) (rows l * cols l)) Hhs eq_refl)
    as [_ Hheap].
  apply Hheap.
  - rewrite take_seq, elem_of_seq. lia.
  - cbn. by rewrite lookup_app_l.
Qed.

Lemma earlier_panels_untouched_witness :
  axes_heap
    (exec example_second_run
       (exec [example_task]
          (exec (example_task :: example_run ++ [AfterTask]) example_world)))
    !! 0
  = axes_heap (exec (example_task :: example_run ++ [AfterTask]) example_world)
      !! 0.
Proof.
  apply (earlier_panels_untouched example_curve_data example_strategies
           example_filters
           (exec (example_task :: example_run ++ [AfterTask]) example_world));
    [by vm_compute|by repeat constructor|vm_compute; lia].
Defined.

(** ** The saved image *)

Lemma preserves_figure_update_when I f :
  (∀ fig w, figure (self w) = Some fig → I w →
            I (with_self (set_figure (Some (f fig))) w)) →
  preserves I (figure_update f).
Proof.
  intros Hf. apply preserves_gets_bind. intros w Hw.
  destruct (figure (self w)) as [fig|] eqn:E; [|done]. by apply Hf.
Qed.

Lemma preserves_after_strategy_panels I model metric eval_set strategy :
  ignores_axes I → (∀ ax, ignores_panel ax I) → ignores_strategies I →
  (ignores_legend I ∨ ∀ w, I w → is_Some (legend (self w))) →
  preserves I (after_strategy model metric eval_set strategy).
Proof.
  intros Ha Hh Hs Hl. rewrite after_strategy_unfold.
  apply preserves_bind; [by apply preserves_next_axes|].
  intros ax. by apply preserves_after_panel.
Qed.

Lemma call_keeps_grid {X Y C} (h : hook X Y C) g n :
  is_before_task h = false → preserves (grid_is g n) (call h).
Proof.
  unfold grid_is.
  destruct h as [cd st f|model metric eval_set strategy|strategy a
                |model metric eval_set strategy|]; cbn; [done| | | |]; intros _.
  - apply preserves_before_strategy; by intros ? ? ?.
  - apply preserves_bind; [|by intros ? ? ?].
    apply preserves_notify_before_iter. by intros ? ? ?.
  - apply preserves_after_strategy_panels; try by intros ? ? ?.
    + intros ax a w [? ?]. split; [done|]. cbn. by rewrite length_insert.
    + left. by intros ? ? ?.
  - apply preserves_after_task_figure; [|by intros ? ? ?].
    intros f Hf. apply preserves_figure_update_when.
    intros fig w Hfig [Hg ?]. split; [|done]. cbn.
    rewrite Hfig in Hg. cbn in Hg. by destruct (Hf fig) as (_ & _ & ->).
Qed.

Lemma exec_keeps_grid {X Y C} (hs : list (hook X Y C)) g n : ∀ w,
  within_task hs → grid_is g n w → grid_is g n (exec hs w).
Proof.
  induction hs as [|h hs IH]; intros w Hhs Hw; [done|].
  apply Forall_cons in Hhs as [Hh Hhs].
  change (exec (h :: hs) w) with (exec hs (call h w).2).
  apply IH; [done|]. by apply call_keeps_grid.
Qed.

Lemma call_keeps_shape {X Y C} (h : hook X Y C) r c :
  is_before_task h = false → preserves (shape_is r c) (call h).
Proof.
  unfold shape_is.
  destruct h as [cd st f|model metric eval_set strategy|strategy a
                |model metric eval_set strategy|]; cbn; [done| | | |]; intros _.
  - apply preserves_before_strategy; by intros ? ? ?.
  - apply preserves_bind; [|by intros ? ? ?].
    apply preserves_notify_before_iter. by intros ? ? ?.
  - apply preserves_after_strategy; try by intros ? ? ?. left. by intros ? ? ?.
  - apply preserves_after_task_figure; [|by intros ? ? ?].
    intros f Hf. apply preserves_figure_update_when.
    intros fig w Hfig (f0 & Hf0 & ? & ?). exists (f fig).
    split; [done|]. destruct (Hf fig) as (-> & -> & _). by simplify_eq.
Qed.

Lemma exec_keeps_shape {X Y C} (hs : list (hook X Y C)) r c : ∀ w,
  within_task hs → shape_is r c w → shape_is r c (exec hs w).
Proof.
  induction hs as [|h hs IH]; intros w Hhs Hw; [done|].
  apply Forall_cons in Hhs as [Hh Hhs].
  change (exec (h :: hs) w) with (exec hs (call h w).2).
  apply IH; [done|]. by apply call_keeps_shape.
Qed.

Lemma omap_lookup_seq {A} (h : list A) : ∀ n base,
  base + n ≤ length h →
  omap (fun r => h !! r) (seq base n) = take n (drop base h).
Proof.
  induction n as [|n IH]; intros base Hlen; [done|].
  destruct (lookup_lt_is_Some_2 h base) as [x Hx]; [lia|].
  cbn [seq omap list_omap]. rewrite Hx, (drop_S _ _ _ Hx). cbn.
  f_equal. apply IH. lia.
Qed.

(** X12: the image [after_task] saves shows the whole grid: after a
    successful [before_task] and any calls that follow within the task, an
    [after_task] that returns normally has saved, under
    [os.path.join(path, file_name)], the figure with the captured legend
    and its [rows × cols] panels, of which those beyond the number of
    [after_strategy] calls made (the unused trailing panels) are blank. *)
Theorem saved_image_shows_whole_grid {X Y C : Type}
    (curve_data : dict (list string * list string * X))
    (strategies : dict (Y * list C)) (filters : gmap string filter_value)
    (w w1 w' : World) (hs : list (hook X Y C)) :
  before_task curve_data strategies filters w = (Ok tt, w1) →
  within_task hs →
  after_task (exec hs w1) = (Ok tt, w') →
  ∃ l fname fig panels L,
    before_task_layout curve_data strategies filters = Ok l
    ∧ legend (self (exec hs w1)) = Some L
    ∧ os_path_join (path (self (exec hs w1)))
        (file_name (strategy_callback (self (exec hs w1)))) = Ok fname
    ∧ saved w' = saved (exec hs w1) ++ [(fname, fig, panels)]
    ∧ fig_rows fig = rows l ∧ fig_cols fig = cols l
    ∧ fig_legend fig = Some L
    ∧ length panels = rows l * cols l
    ∧ ∀ j, after_strategy_calls hs ≤ j → j < rows l * cols l →
           panels !! j = Some blank_axes.
Proof.
  intros Hb Hhs Hrun. apply before_task_started in Hb as (l & Hl & -> & _).
  set (base := length (axes_heap w)). set (N := rows l * cols l).
  set (w2 := exec hs (started l w)) in *.
  destruct (exec_within_task hs (started l w) (seq base N) Hhs eq_refl)
    as [_ Hheap].
  assert (grid_is (seq base N) (base + N) w2) as [Hfig Hlen].
  { apply exec_keeps_grid; [done|]. split; [done|]. cbn.
    by rewrite length_app, length_replicate. }
  assert (shape_is (rows l) (cols l) w2) as (f & Hf & Hrows & Hcols).
  { apply exec_keeps_shape; [done|]. by eexists. }
  apply after_task_returned in Hrun
    as (fig & L & p & fname & Hf' & HL & Hp & Hj & _ & ->).
  rewrite Hf in Hf'. injection Hf' as <-.
  rewrite Hf in Hfig. injection Hfig as Hfig.
  eexists l, fname, _, _, L. split; [done|]. split; [done|].
  split; [by rewrite Hp|]. split; [reflexivity|].
  split; [done|]. split; [done|]. split; [done|].
  cbn [fig_axes decorated axes_heap with_self].
  rewrite Hfig, omap_lookup_seq by lia.
  split; [rewrite length_take, length_drop; lia|].
  intros j Hj' HjN. rewrite lookup_take_lt, lookup_drop by done.
  apply Hheap.
  - rewrite take_seq, elem_of_seq. lia.
  - cbn. rewrite lookup_app_r by (unfold base; lia).
    apply lookup_replicate_2. unfold base, N. lia.
Qed.

Lemma saved_image_shows_whole_grid_witness :
  ∃ fname fig panels,
    saved (after_task (exec example_run (exec [example_task] example_world))).2
    = [(fname, fig, panels)]
    ∧ fname = "out/patience_curves"
    ∧ length panels = 9 ∧ panels !! 8 = Some blank_axes.
Proof.
  edestruct (saved_image_shows_whole_grid example_curve_data example_strategies
               example_filters example_world
               (exec [example_task] example_world)
               (after_task
                  (exec example_run (exec [example_task] example_world))).2
               example_run)
    as (l & fname & fig & panels & L & Hl & _ & Hj & Hs & _ & _ & _ & Hlen & Hblank);
    [by vm_compute|by repeat constructor|by vm_compute|].
  assert (l = MkLayout 4 2 8 3 3) as -> by (vm_compute in Hl; congruence).
  exists fname, fig, panels. split; [rewrite Hs; by vm_compute|].
  split; [vm_compute in Hj; congruence|]. split; [done|].
  apply Hblank; vm_compute; lia.
Defined.

(** ** What the legend shows *)

Lemma tracked_lines_in_legend cls (x : list scalar) (y : string → list scalar) :
  List.filter in_legend ((fun k => MkLine x (y k) k) <$> tail (tracked cls))
  = (fun k => MkLine x (y k) k) <$> tail (tracked cls)
  ∧ line_label <$> ((fun k => MkLine x (y k) k) <$> tail (tracked cls))
    = tail (tracked cls).
Proof. by destruct cls. Qed.

(** X13: when no legend is captured yet and the panel taken is blank, a
    complete strategy run with K ≥ 1 iterations captures a legend with one
    entry per tracked series other than "iter", in the order the aggregator
    created them: "iter_wo_improvement" and "patience" for the patience
    aggregator, "error" for the learning-curve aggregator. *)
Theorem first_run_captures_tracked_labels (model metric eval_set : string)
    (strategy : nat) (w : World) (s : Strategy) (ax : nat) (rest : list nat)
    (a : Axes) (calls : list iter_args) :
  strategies w !! strategy = Some s →
  axes (self w) = Some (ax :: rest) →
  axes_heap w !! ax = Some a → ax_lines a = [] →
  legend (self w) = None →
  calls ≠ [] →
  ∃ w1 w2 w3 handles,
    before_strategy model metric eval_set strategy w = (Ok tt, w1)
    ∧ before_iter_on
        (MkInstance (strategy_callback (self w)) (length (dicts w))) calls w1
      = (Ok (replicate (length calls) false), w2)
    ∧ after_strategy model metric eval_set strategy w2 = (Ok tt, w3)
    ∧ legend (self w3)
      = Some (handles, tail (tracked (strategy_callback (self w))))
    ∧ ("iter" ∉ tail (tracked (strategy_callback (self w))))
    ∧ length handles = length (tracked (strategy_callback (self w))) - 1.
Proof.
  intros Hs Hax Ha Hblank HL Hcalls.
  destruct (strategy_run_ok model metric eval_set strategy w s ax rest a calls)
    as (w1 & w2 & w3 & a' & H1 & H2 & H3 & _ & Hlines & _ & Hleg & _); [done..|].
  rewrite HL in Hleg. cbn in Hleg. unfold legend_handles_labels in Hleg.
  rewrite Hlines, Hblank in Hleg. cbn [app] in Hleg.
  destruct (tracked_lines_in_legend (strategy_callback (self w))
              (contribution "iter" <$> calls)
              (fun k => contribution k <$> calls)) as [Hf Hl].
  rewrite Hf, Hl in Hleg.
  eexists w1, w2, w3, _. split; [done|]. split; [done|]. split; [done|].
  split; [exact Hleg|]. split.
  - destruct (strategy_callback (self w)); by apply (bool_decide_unpack _).
  - rewrite length_fmap. by destruct (strategy_callback (self w)).
Qed.

Lemma first_run_captures_tracked_labels_witness :
  ∃ w3 handles,
    after_strategy "m1" "mse" "train" 0 example_iterated = (Ok tt, w3)
    ∧ legend (self w3) = Some (handles, ["iter_wo_improvement"; "patience"]).
Proof.
  destruct (first_run_captures_tracked_labels "m1" "mse" "train" 0
              (exec [example_task] example_world) (MkStrategy "S" None)
              0 (seq 1 8) blank_axes [IterArgs 0 (S754_zero false) 0 5])
    as (w1 & w2 & w3 & handles & H1 & H2 & H3 & H4 & _);
    [by vm_compute..|].
  assert (w2 = example_iterated) as ->.
  { assert (w1 = example_attached) as -> by (unfold example_attached; by rewrite H1).
    apply (f_equal snd) in H2. cbn in H2. rewrite <- H2. by vm_compute. }
  by exists w3, handles.
Defined.

(** ** Filters that match nothing *)

Lemma no_match_count names flt :
  no_match names flt →
  (if truthy flt then length (np_intersect1d names (filter_items flt))
   else length names) = 0.
Proof.
  intros [[Ht Hdis]| ->].
  - rewrite Ht. unfold np_intersect1d.
    destruct (filter _ _) as [|x l] eqn:E; [done|].
    assert (x ∈ filter (fun s => s ∈ filter_items flt) (np_unique names)) as Hx
      by (rewrite E; by left).
    apply list_elem_of_filter in Hx as [Hin Hx].
    rewrite elem_of_np_unique in Hx. by apply Hdis in Hx.
  - by destruct (truthy flt).
Qed.

Lemma total_curves_loop_no_curve {X}
    (curve_data : dict (list string * list string * X)) filters fm fmet fev :
  ∀ acc,
  filters !! "models" = Some fm → filters !! "metrics" = Some fmet →
  filters !! "eval_sets" = Some fev →
  Forall (adds_no_curve fm fmet fev) curve_data →
  total_curves_loop curve_data filters acc = Ok acc.
Proof.
  intros acc Hm Hme Hev Hall. revert acc.
  induction Hall as [|[model [[es ms] x]] cd Hh Hall IH]; intros acc; [done|].
  cbn. unfold filter_getitem. rewrite Hm, Hme, Hev. cbn.
  destruct (truthy fm && negb (bool_decide (model ∈ filter_items fm))) eqn:E;
    [apply IH|].
  destruct Hh as [Hi|[Hn|Hn]]; cbn in Hi || cbn in Hn.
  - unfold included in Hi. by rewrite E in Hi.
  - rewrite (no_match_count _ _ Hn), Nat.mul_0_l, Nat.add_0_r. apply IH.
  - rewrite (no_match_count _ _ Hn), Nat.mul_0_r, Nat.add_0_r. apply IH.
Qed.

(** X14: filters that match nothing do not give an empty figure but an
    error: when the three keys are present and every model is left out by
    the [models] filter, or has none of its metrics in a truthy [metrics]
    filter, or none of its eval sets in a truthy [eval_sets] filter, then
    [before_task] raises [ZeroDivisionError] and changes nothing. *)
Theorem filters_matching_nothing_fail {X Y C : Type}
    (curve_data : dict (list string * list string * X))
    (strategies : dict (Y * list C)) (filters : gmap string filter_value)
    (fm fmet fev : filter_value) (w : World) :
  filters !! "models" = Some fm → filters !! "metrics" = Some fmet →
  filters !! "eval_sets" = Some fev →
  Forall (adds_no_curve fm fmet fev) curve_data →
  before_task curve_data strategies filters w = (Raise ZeroDivisionError, w).
Proof.
  intros Hm Hme Hev Hall.
  rewrite before_task_unfold, before_task_layout_unfold. unfold total_curves.
  by rewrite (total_curves_loop_no_curve _ _ fm fmet fev).
Qed.

Lemma filters_matching_nothing_fail_witness :
  before_task example_curve_data example_strategies
    (<["metrics" := FList ["rmse"]]> example_filters) example_world
  = (Raise ZeroDivisionError, example_world).
Proof.
  apply (filters_matching_nothing_fail example_curve_data example_strategies
           (<["metrics" := FList ["rmse"]]> example_filters)
           (FList []) (FList ["rmse"]) (FList []));
    [reflexivity..|].
  constructor; [|constructor]. right. left. left. split; [done|].
  intros x Hx. cbn in *. set_unfold. intros [->|[]].
  destruct Hx as [|[|[]]]; discriminate.
Defined.

(** ** Which observer is detached *)

(** X15: an [after_strategy] that returns has removed the last observer of
    the strategy, whichever it is (an observer appended after the
    aggregator is the one removed, the aggregator then stays), has kept the
    others in order, and has left every other strategy alone. *)
Theorem after_strategy_pops_the_last (model metric eval_set : string)
    (strategy : nat) (w w' : World) (s : Strategy) :
  strategies w !! strategy = Some s →
  after_strategy model metric eval_set strategy w = (Ok tt, w') →
  ∃ l x,
    callbacks s = Some (l ++ [x])
    ∧ (callbacks <$> strategies w' !! strategy) = Some (Some l)
    ∧ (strategy_str <$> strategies w' !! strategy) = Some (strategy_str s)
    ∧ ∀ j, j ≠ strategy → strategies w' !! j = strategies w !! j.
Proof.
  intros Hs H.
  apply (after_strategy_inv _ _ _ _ _ _ s) in H as [(c & cs & Hcb) ->]; [|done].
  destruct (exists_last (l := c :: cs)) as (l & x & Hl); [done|].
  exists l, x. rewrite Hcb, Hl. split; [done|].
  rewrite list_lookup_insert_eq by (by eapply lookup_lt_Some).
  unfold detached. rewrite Hcb, Hl. cbn. rewrite removelast_snoc.
  split; [done|]. split; [done|].
  intros j Hj. by rewrite list_lookup_insert_ne.
Qed.

Lemma after_strategy_pops_the_last_witness :
  ∃ l x,
    Some [MkInstance PatienceStrategyCallback 0] = Some (l ++ [x])
    ∧ (callbacks
         <$> strategies (after_strategy "m1" "mse" "train" 0 example_iterated).2
             !! 0)
      = Some (Some l).
Proof.
  destruct (after_strategy_pops_the_last "m1" "mse" "train" 0 example_iterated
              (after_strategy "m1" "mse" "train" 0 example_iterated).2
              (MkStrategy "S" (Some [MkInstance PatienceStrategyCallback 0])))
    as (l & x & Hl & Hc & _); [by vm_compute..|].
  by exists l, x.
Defined.
